(** * Foundry IQ agent creator: a shallow embedding of [create_agent.py]

    The script provisions a chain of four remote resources (knowledge
    source, knowledge base, project connection, agent version) and can
    delete them again.  Every remote operation is an event answered by a
    backend that is a parameter of the development: the theorems hold for
    every backend, and the examples run on a small in-memory one. *)

From stdpp Require Import gmap strings list pretty.

Open Scope string_scope.
Open Scope Z_scope.
Open Scope list_scope.

(** ** Python values used by the script *)

(** The double-quote character, for the string constants that contain it. *)
Definition dquote : string :=
  String (Ascii.Ascii false true false false false true false false) EmptyString.

(** [s[:n]]: the first [n] characters. *)
Definition slice_to (n : nat) (s : string) : string := String.substring 0 n s.

(** Truth value of an [Optional[str]]: [None] and the empty string are false. *)
Definition truthy (o : option string) : bool :=
  match o with
  | Some (String _ _) => true
  | _ => false
  end.

(** [o or d] for an optional string [o]. *)
Definition or_else (o : option string) (d : string) : string :=
  match o with
  | Some (String a s) => String a s
  | _ => d
  end.

(** [', '.join(l)] *)
Definition join (sep : string) (l : list string) : string := String.concat sep l.

(** ** SDK models ([azure.search.documents], [azure.ai.projects]) *)

Record SearchIndexFieldReference := { field_name : string }.

Record SearchIndexKnowledgeSourceParameters := {
  search_index_name : string;
  source_data_fields : list SearchIndexFieldReference }.

Record SearchIndexKnowledgeSource := {
  ks_name : string;
  ks_description : string;
  search_index_parameters : SearchIndexKnowledgeSourceParameters }.

Inductive KnowledgeRetrievalReasoningEffort :=
| KnowledgeRetrievalMinimalReasoningEffort
| KnowledgeRetrievalLowReasoningEffort
| KnowledgeRetrievalMediumReasoningEffort.

Inductive KnowledgeRetrievalOutputMode := EXTRACTIVE_DATA | ANSWER_SYNTHESIS.

Record AzureOpenAIVectorizerParameters := {
  resource_url : string;
  deployment_name : string;
  model_name : string }.

Record KnowledgeBaseAzureOpenAIModel := {
  azure_open_ai_parameters : AzureOpenAIVectorizerParameters }.

Record KnowledgeSourceReference := { ref_name : string }.

Record KnowledgeBase := {
  kb_name : string;
  kb_description : string;
  knowledge_sources : list KnowledgeSourceReference;
  models : list KnowledgeBaseAzureOpenAIModel;
  output_mode : KnowledgeRetrievalOutputMode;
  retrieval_reasoning_effort : KnowledgeRetrievalReasoningEffort }.

Record MCPTool := {
  server_label : string;
  server_url : string;
  require_approval : string;
  allowed_tools : list string;
  project_connection_id : string }.

Record PromptAgentDefinition := {
  agent_model : string;
  instructions : string;
  tools : list MCPTool }.

(** What [agents.create_version] returns; only [version] is read. *)
Record AgentVersionDetails := { version : string }.

Record KnowledgeBaseMessageTextContent := { text : string }.

Record KnowledgeBaseMessage := {
  role : string;
  content : list KnowledgeBaseMessageTextContent }.

Record SearchIndexKnowledgeSourceParams := {
  knowledge_source_name : string;
  include_references : bool;
  include_reference_source_data : bool }.

Record KnowledgeBaseRetrievalRequest := {
  messages : list KnowledgeBaseMessage;
  knowledge_source_params : list SearchIndexKnowledgeSourceParams;
  include_activity : bool }.

Record KnowledgeBaseRetrievalResponse := { response : list KnowledgeBaseMessage }.

(** ** The [requests] library *)

(** Body of the connection PUT (the [json=] argument). *)
Record ConnectionProperties := {
  authType : string;
  category : string;
  target : string;
  isSharedToAll : bool;
  audience : string;
  metadata_ApiType : string }.

Record ConnectionBody := {
  conn_name : string;
  conn_type : string;
  properties : ConnectionProperties }.

Record Response := {
  status_code : Z;
  reason : string;
  url : string;
  response_text : string }.

(** ** Exceptions *)

Inductive exn :=
| HTTPError (msg : string) (resp : option Response)
    (* requests.exceptions.HTTPError: str(e) and e.response *)
| IndexError (msg : string)
| KeyError (key : string)
| OtherException (cls msg : string).
    (* any other subclass of Exception raised by a client library *)


(** [str(e)], as the f-strings of the handlers print it. *)
Definition exn_str (e : exn) : string :=
  match e with
  | HTTPError msg _ => msg
  | IndexError msg => msg
  | KeyError key => "'" +:+ key +:+ "'"
  | OtherException _ msg => msg
  end.

Inductive result (A : Type) :=
| Return (a : A)
| Raise (e : exn).
Arguments Return {A} a.
Arguments Raise {A} e.

(** [l[0]] on a Python list. *)
Definition index0 {A} (l : list A) : result A :=
  match l with
  | x :: _ => Return x
  | [] => Raise (IndexError "list index out of range")
  end.

(** [Response.raise_for_status] of [requests]: client and server error
    statuses raise [HTTPError] carrying the response. *)
Definition raise_for_status (r : Response) : result unit :=
  if bool_decide (400 <= status_code r < 500) then
    Raise (HTTPError (pretty (status_code r) +:+ " Client Error: " +:+ reason r
                        +:+ " for url: " +:+ url r) (Some r))
  else if bool_decide (500 <= status_code r < 600) then
    Raise (HTTPError (pretty (status_code r) +:+ " Server Error: " +:+ reason r
                        +:+ " for url: " +:+ url r) (Some r))
  else Return tt.

(** ** Module constants *)

Definition REQUIRED_ENV_VARS : list string :=
  [ "AZURE_SEARCH_ENDPOINT";
    "AZURE_OPENAI_ENDPOINT";
    "PROJECT_ENDPOINT";
    "PROJECT_RESOURCE_ID" ].

Definition API_VERSION : string := "2025-11-01-preview".
Definition MGMT_API_VERSION : string := "2025-10-01-preview".

Definition AGENT_INSTRUCTIONS : string :=
  "You are a helpful assistant that must use the knowledge base to answer all questions from user. You must never answer from your own knowledge under any circumstances.
Every answer must always provide annotations for using the MCP knowledge base tool and render them as: 【message_idx:search_idx†source_name】
If you cannot find the answer in the provided knowledge base you must respond with " +:+ dquote +:+ "I don't know" +:+ dquote +:+ ".".

(** ** Remote operations

    One constructor per call that leaves the process, indexed by the type
    of what the call returns.  SDK calls carry the endpoint their client
    was built with. *)

Inductive request : Type -> Type :=
| create_or_update_knowledge_source
    (endpoint : string) (knowledge_source : SearchIndexKnowledgeSource) : request unit
| create_or_update_knowledge_base
    (endpoint : string) (knowledge_base : KnowledgeBase) : request unit
| delete_knowledge_base (endpoint : string) (name : string) : request unit
| delete_knowledge_source (endpoint : string) (name : string) : request unit
| agents_create_version
    (endpoint : string) (agent_name : string) (definition : PromptAgentDefinition)
    : request AgentVersionDetails
| agents_delete_version
    (endpoint : string) (agent_name agent_version : string) : request unit
| retrieve
    (endpoint : string) (knowledge_base_name : string)
    (retrieval_request : KnowledgeBaseRetrievalRequest)
    : request KnowledgeBaseRetrievalResponse
| get_bearer_token (scope : string) : request string
| requests_put
    (put_url : string) (headers : list (string * string)) (json : ConnectionBody)
    : request Response
| requests_delete
    (delete_url : string) (headers : list (string * string)) : request Response.

(** A call together with its outcome. *)
Inductive event :=
| Event {R : Type} (r : request R) (o : result R).

(** ** The builder object *)

Record FoundryIQAgentBuilder := {
  search_endpoint : string;
  aoai_endpoint : string;
  project_endpoint : string;
  project_resource_id : string }.

(** [os.environ[key]] *)
Definition environ_getitem (environ : gmap string string) (key : string) : result string :=
  match environ !! key with
  | Some v => Return v
  | None => Raise (KeyError key)
  end.

(** [FoundryIQAgentBuilder.__init__]: reads the four variables; building the
    credential and the two SDK clients sends nothing. *)
Definition FoundryIQAgentBuilder_init (environ : gmap string string)
  : result FoundryIQAgentBuilder :=
  match environ_getitem environ "AZURE_SEARCH_ENDPOINT" with
  | Raise e => Raise e
  | Return se =>
    match environ_getitem environ "AZURE_OPENAI_ENDPOINT" with
    | Raise e => Raise e
    | Return ae =>
      match environ_getitem environ "PROJECT_ENDPOINT" with
      | Raise e => Raise e
      | Return pe =>
        match environ_getitem environ "PROJECT_RESOURCE_ID" with
        | Raise e => Raise e
        | Return pr =>
          Return {| search_endpoint := se; aoai_endpoint := ae;
                    project_endpoint := pe; project_resource_id := pr |}
        end
      end
    end
  end.

(** [reasoning_map] of [create_knowledge_base]. *)
Definition reasoning_map : gmap string KnowledgeRetrievalReasoningEffort :=
  <["minimal" := KnowledgeRetrievalMinimalReasoningEffort]>
  (<["low" := KnowledgeRetrievalLowReasoningEffort]>
  (<["medium" := KnowledgeRetrievalMediumReasoningEffort]> ∅)).

(** ** Command line ([argparse]) *)

(** The options as given on the command line: [None] for an option that is
    absent. *)
Record cli := {
  opt_index_name : option string;
  opt_agent_name : option string;
  opt_model : option string;
  opt_reasoning : option string;
  opt_source_fields : option (list string);
  opt_test_query : option string;
  opt_cleanup : bool }.

(** The namespace [parse_args] returns. *)
Record Namespace := {
  index_name : string;
  agent_name : string;
  model : string;
  reasoning : string;
  source_fields : list string;
  test_query : option string;
  cleanup : bool }.

Definition reasoning_choices : list string := ["minimal"; "low"; "medium"].

(** [parser.parse_args()] for the seven arguments of [main].  [None] stands
    for the parser's error exit (status 2): [--index-name] is required,
    [--reasoning] must be one of its choices, [--source-fields] takes at
    least one value. *)
Definition parse_args (c : cli) : option Namespace :=
  match opt_index_name c with
  | None => None
  | Some idx =>
    let r := default "minimal" (opt_reasoning c) in
    if negb (bool_decide (r ∈ reasoning_choices)) then None
    else
      match opt_source_fields c with
      | Some [] => None
      | fields =>
        Some {| index_name := idx;
                agent_name := default "foundry-iq-agent" (opt_agent_name c);
                model := default "gpt-4.1-mini" (opt_model c);
                reasoning := r;
                source_fields := default ["id"; "title"] fields;
                test_query := opt_test_query c;
                cleanup := opt_cleanup c |}
      end
  end.

(** ** The script monad: backend state, call trace, standard output, and
    exceptions *)

Section Script.

Context {World : Type}.
Variable serve : ∀ R, World → request R → result R * World.

Record state := {
  world : World;
  trace : list event;
  stdout : list string }.

Definition M (A : Type) : Type := state → result A * state.

Definition ret {A} (a : A) : M A := λ s, (Return a, s).

Definition bind {A B} (c : M A) (k : A → M B) : M B :=
  λ s, match c s with
       | (Return a, s') => k a s'
       | (Raise e, s') => (Raise e, s')
       end.

Definition lift {A} (r : result A) : M A := λ s, (r, s).

(** [print(line)] *)
Definition print (line : string) : M unit :=
  λ s, (Return tt, {| world := world s; trace := trace s; stdout := stdout s ++ [line] |}).

(** A remote call: the backend answers, the call is logged. *)
Definition call {R} (r : request R) : M R :=
  λ s, let '(o, w) := serve R (world s) r in
       (o, {| world := w; trace := trace s ++ [Event r o]; stdout := stdout s |}).

Notation "'let*' x ':=' c 'in' k" := (bind c (λ x, k))
  (at level 10, x pattern, c at level 200, k at level 200).

(** [if o: body(o)] for an optional string [o]. *)
Definition when_truthy (o : option string) (body : string → M unit) : M unit :=
  match o with
  | Some (String a s) => body (String a s)
  | _ => ret tt
  end.

(** *** Methods of [FoundryIQAgentBuilder] *)

Definition _get_management_token : M string :=
  call (get_bearer_token "https://management.azure.com/.default").

Definition create_knowledge_source (self : FoundryIQAgentBuilder)
    (name : string) (index_name : string) (source_fields : option (list string))
  : M SearchIndexKnowledgeSource :=
  let source_fields := default ["id"; "title"; "content"] source_fields in
  let ks :=
    {| ks_name := name;
       ks_description := "Knowledge source from index: " +:+ index_name;
       search_index_parameters :=
         {| search_index_name := index_name;
            source_data_fields := (λ f, {| field_name := f |}) <$> source_fields |} |} in
  let* _ := call (create_or_update_knowledge_source (search_endpoint self) ks) in
  let* _ := print ("✓ Knowledge source '" +:+ name +:+ "' created from index '"
                     +:+ index_name +:+ "'") in
  ret ks.

Definition create_knowledge_base (self : FoundryIQAgentBuilder)
    (name : string) (source_names : list string) (model : string) (reasoning : string)
  : M (KnowledgeBase * string) :=
  let aoai_params :=
    {| resource_url := aoai_endpoint self;
       deployment_name := model;
       model_name := model |} in
  let kb :=
    {| kb_name := name;
       kb_description := "Knowledge base with sources: " +:+ join ", " source_names;
       knowledge_sources := (λ s, {| ref_name := s |}) <$> source_names;
       models := [ {| azure_open_ai_parameters := aoai_params |} ];
       output_mode := EXTRACTIVE_DATA;
       retrieval_reasoning_effort :=
         default KnowledgeRetrievalMinimalReasoningEffort (reasoning_map !! reasoning) |} in
  let* _ := call (create_or_update_knowledge_base (search_endpoint self) kb) in
  let* _ := print ("✓ Knowledge base '" +:+ name +:+ "' created") in
  let mcp_endpoint :=
    search_endpoint self +:+ "/knowledgebases/" +:+ name +:+ "/mcp?api-version="
      +:+ API_VERSION in
  ret (kb, mcp_endpoint).

Definition connection_url (self : FoundryIQAgentBuilder) (connection_name : string) : string :=
  "https://management.azure.com" +:+ project_resource_id self +:+ "/connections/"
    +:+ connection_name +:+ "?api-version=" +:+ MGMT_API_VERSION.

Definition create_project_connection (self : FoundryIQAgentBuilder)
    (connection_name : string) (mcp_endpoint : string) : M string :=
  let* token := _get_management_token in
  let* response :=
    call (requests_put
            (connection_url self connection_name)
            [("Authorization", "Bearer " +:+ token); ("Content-Type", "application/json")]
            {| conn_name := connection_name;
               conn_type := "Microsoft.MachineLearningServices/workspaces/connections";
               properties :=
                 {| authType := "ProjectManagedIdentity";
                    category := "RemoteTool";
                    target := mcp_endpoint;
                    isSharedToAll := true;
                    audience := "https://search.azure.com/";
                    metadata_ApiType := "Azure" |} |}) in
  let* _ := lift (raise_for_status response) in
  let* _ := print ("✓ Project connection '" +:+ connection_name +:+ "' created") in
  ret connection_name.

Definition create_agent (self : FoundryIQAgentBuilder)
    (agent_name : string) (mcp_endpoint : string) (connection_name : string)
    (model : string) (instructions : option string) : M AgentVersionDetails :=
  let mcp_tool :=
    {| server_label := "knowledge-base";
       server_url := mcp_endpoint;
       require_approval := "never";
       allowed_tools := ["knowledge_base_retrieve"];
       project_connection_id := connection_name |} in
  let* agent :=
    call (agents_create_version (project_endpoint self) agent_name
            {| agent_model := model;
               instructions := or_else instructions AGENT_INSTRUCTIONS;
               tools := [mcp_tool] |}) in
  let* _ := print ("✓ Agent '" +:+ agent_name +:+ "' created (version: "
                     +:+ version agent +:+ ")") in
  ret agent.

Definition query_knowledge_base (self : FoundryIQAgentBuilder)
    (kb_name : string) (ks_name : string) (query : string)
  : M KnowledgeBaseRetrievalResponse :=
  let request :=
    {| messages := [ {| role := "user"; content := [ {| text := query |} ] |} ];
       knowledge_source_params :=
         [ {| knowledge_source_name := ks_name;
              include_references := true;
              include_reference_source_data := true |} ];
       include_activity := true |} in
  call (retrieve (search_endpoint self) kb_name request).

Definition delete_resources (self : FoundryIQAgentBuilder)
    (agent_name agent_version connection_name kb_name ks_name : option string) : M unit :=
  let* _ :=
    when_truthy agent_name (λ agent_name,
      when_truthy agent_version (λ agent_version,
        let* _ := call (agents_delete_version (project_endpoint self)
                          agent_name agent_version) in
        print ("✓ Agent '" +:+ agent_name +:+ "' version '" +:+ agent_version
                 +:+ "' deleted"))) in
  let* _ :=
    when_truthy connection_name (λ connection_name,
      let* token := _get_management_token in
      let* _ := call (requests_delete (connection_url self connection_name)
                        [("Authorization", "Bearer " +:+ token)]) in
      print ("✓ Connection '" +:+ connection_name +:+ "' deleted")) in
  let* _ :=
    when_truthy kb_name (λ kb_name,
      let* _ := call (delete_knowledge_base (search_endpoint self) kb_name) in
      print ("✓ Knowledge base '" +:+ kb_name +:+ "' deleted")) in
  when_truthy ks_name (λ ks_name,
    let* _ := call (delete_knowledge_source (search_endpoint self) ks_name) in
    print ("✓ Knowledge source '" +:+ ks_name +:+ "' deleted")).

(** *** [validate_environment] and [main] *)

(** The newline character of the [\n] escapes. *)
Definition nl : string :=
  String (Ascii.Ascii false true false true false false false false) EmptyString.

(** [for x in l: body(x)] *)
Fixpoint for_each {A} (l : list A) (body : A → M unit) : M unit :=
  match l with
  | [] => ret tt
  | x :: l' => let* _ := body x in for_each l' body
  end.

(** The list comprehension of [validate_environment]. *)
Definition missing_vars (environ : gmap string string) : list string :=
  List.filter (λ v, negb (truthy (environ !! v))) REQUIRED_ENV_VARS.

Definition validate_environment (environ : gmap string string) : M bool :=
  let missing := missing_vars environ in
  match missing with
  | _ :: _ =>
    let* _ := print "Missing required environment variables:" in
    let* _ := for_each missing (λ var, print ("  - " +:+ var)) in
    ret false
  | [] => ret true
  end.

(** [try: body except Exception as e: handler(e)] *)
Definition try_except {A} (body : M A) (handler : exn → M A) : M A :=
  λ s, match body s with
       | (Raise e, s') => handler e s'
       | (Return a, s') => (Return a, s')
       end.

(** The two [except] clauses of [main]. *)
Definition main_except (e : exn) : M Z :=
  match e with
  | HTTPError _ resp =>
    let* _ := print (nl +:+ "✗ API Error: " +:+ exn_str e) in
    let* _ := match resp with
              | Some r => print ("  Response: " +:+ slice_to 500 (response_text r))
              | None => ret tt
              end in
    ret 1
  | _ =>
    let* _ := print (nl +:+ "✗ Error: " +:+ exn_str e) in
    ret 1
  end.

(** [main] from line 236 on, given the namespace [parse_args] returned. *)
Definition main (args : Namespace) (environ : gmap string string) : M Z :=
  let* valid := validate_environment environ in
  if negb valid then ret 1 else
  let* builder := lift (FoundryIQAgentBuilder_init environ) in
  let ks_name := "ks-" +:+ agent_name args in
  let kb_name := "kb-" +:+ agent_name args in
  let conn_name := "conn-" +:+ agent_name args in
  try_except
    (let* _ := create_knowledge_source builder ks_name (index_name args)
                 (Some (source_fields args)) in
     let* (kb, mcp_endpoint) :=
       create_knowledge_base builder kb_name [ks_name] (model args) (reasoning args) in
     let* _ := create_project_connection builder conn_name mcp_endpoint in
     let* agent :=
       create_agent builder (agent_name args) mcp_endpoint conn_name (model args) None in
     let* _ :=
       when_truthy (test_query args) (λ test_query,
         let* _ := print (nl +:+ "Testing knowledge base: " +:+ test_query) in
         let* result := query_knowledge_base builder kb_name ks_name test_query in
         let* message := lift (index0 (response result)) in
         let* item := lift (index0 (content message)) in
         print ("Response: " +:+ slice_to 500 (text item) +:+ "...")) in
     let* _ := print (nl +:+ "✓ Agent '" +:+ agent_name args +:+ "' is ready!") in
     let* _ := print ("  MCP Endpoint: " +:+ mcp_endpoint) in
     let* _ :=
       if cleanup args then
         let* _ := print (nl +:+ "Cleaning up...") in
         delete_resources builder (Some (agent_name args)) (Some (version agent))
           (Some conn_name) (Some kb_name) (Some ks_name)
       else ret tt in
     ret 0)
    main_except.

(** [exit(main())]: the exit status of the process and the final state.
    A command line the parser rejects exits with status 2 before anything
    else runs; an exception that leaves [main] ends the process with
    status 1. *)
Definition script (c : cli) (environ : gmap string string) (s : state) : Z * state :=
  match parse_args c with
  | None => (2, s)
  | Some args =>
    match main args environ s with
    | (Return code, s') => (code, s')
    | (Raise _, s') => (1, s')
    end
  end.

(** *** The phases of [main]

    The [try] block of [main] cut in three for the proofs: the four creation
    steps, the optional test query, and what follows. *)

Definition provisioning (builder : FoundryIQAgentBuilder) (args : Namespace)
  : M (string * AgentVersionDetails) :=
  let ks_name := "ks-" +:+ agent_name args in
  let kb_name := "kb-" +:+ agent_name args in
  let conn_name := "conn-" +:+ agent_name args in
  let* _ := create_knowledge_source builder ks_name (index_name args)
              (Some (source_fields args)) in
  let* (kb, mcp_endpoint) :=
    create_knowledge_base builder kb_name [ks_name] (model args) (reasoning args) in
  let* _ := create_project_connection builder conn_name mcp_endpoint in
  let* agent :=
    create_agent builder (agent_name args) mcp_endpoint conn_name (model args) None in
  ret (mcp_endpoint, agent).

Definition smoke_test (builder : FoundryIQAgentBuilder) (args : Namespace) : M unit :=
  when_truthy (test_query args) (λ test_query,
    let* _ := print (nl +:+ "Testing knowledge base: " +:+ test_query) in
    let* result := query_knowledge_base builder ("kb-" +:+ agent_name args)
                     ("ks-" +:+ agent_name args) test_query in
    let* message := lift (index0 (response result)) in
    let* item := lift (index0 (content message)) in
    print ("Response: " +:+ slice_to 500 (text item) +:+ "...")).

Definition finish (builder : FoundryIQAgentBuilder) (args : Namespace)
    (mcp_endpoint : string) (agent : AgentVersionDetails) : M Z :=
  let* _ := print (nl +:+ "✓ Agent '" +:+ agent_name args +:+ "' is ready!") in
  let* _ := print ("  MCP Endpoint: " +:+ mcp_endpoint) in
  let* _ :=
    if cleanup args then
      let* _ := print (nl +:+ "Cleaning up...") in
      delete_resources builder (Some (agent_name args)) (Some (version agent))
        (Some ("conn-" +:+ agent_name args)) (Some ("kb-" +:+ agent_name args))
        (Some ("ks-" +:+ agent_name args))
    else ret tt in
  ret 0.

End Script.

Arguments state : clear implicits.
Arguments M : clear implicits.

(** The state a process starts in. *)
Definition boot {World} (w : World) : state World :=
  {| world := w; trace := []; stdout := [] |}.

(** ** An in-memory backend

    A small model of the three services, used to run the script on concrete
    inputs: resources are kept by name, and failures are injected per kind of
    operation. *)

Module Memory.

Inductive op :=
| PutKnowledgeSource | PutKnowledgeBase | DropKnowledgeBase | DropKnowledgeSource
| CreateVersion | DeleteVersion | Retrieve | Token | HttpPut | HttpDelete.

#[global] Instance op_eq_dec : EqDecision op.
Proof. solve_decision. Defined.

Definition op_of {R} (r : request R) : op :=
  match r with
  | create_or_update_knowledge_source _ _ => PutKnowledgeSource
  | create_or_update_knowledge_base _ _ => PutKnowledgeBase
  | delete_knowledge_base _ _ => DropKnowledgeBase
  | delete_knowledge_source _ _ => DropKnowledgeSource
  | agents_create_version _ _ _ => CreateVersion
  | agents_delete_version _ _ _ => DeleteVersion
  | retrieve _ _ _ => Retrieve
  | get_bearer_token _ => Token
  | requests_put _ _ _ => HttpPut
  | requests_delete _ _ => HttpDelete
  end.

Record store := {
  sources : gset string;                 (* knowledge sources, by name *)
  bases : gset string;                   (* knowledge bases, by name *)
  connections : gmap string string;      (* connection URL to target *)
  agents : list (string * string);       (* agent versions: name, version *)
  answers : list KnowledgeBaseMessage;   (* what a retrieval returns *)
  raising : list (op * exn);             (* operations that raise *)
  refusing : list (op * Z) }.            (* HTTP operations answered with an error status *)

Definition empty : store :=
  {| sources := ∅; bases := ∅; connections := ∅; agents := [];
     answers := [ {| role := "assistant"; content := [ {| text := "42" |} ] |} ];
     raising := []; refusing := [] |}.

Definition lookup_op {A} (o : op) (l : list (op * A)) : option A :=
  snd <$> List.find (λ p, bool_decide (p.1 = o)) l.

Definition with_sources (w : store) (x : gset string) : store :=
  {| sources := x; bases := bases w; connections := connections w; agents := agents w;
     answers := answers w; raising := raising w; refusing := refusing w |}.
Definition with_bases (w : store) (x : gset string) : store :=
  {| sources := sources w; bases := x; connections := connections w; agents := agents w;
     answers := answers w; raising := raising w; refusing := refusing w |}.
Definition with_connections (w : store) (x : gmap string string) : store :=
  {| sources := sources w; bases := bases w; connections := x; agents := agents w;
     answers := answers w; raising := raising w; refusing := refusing w |}.
Definition with_agents (w : store) (x : list (string * string)) : store :=
  {| sources := sources w; bases := bases w; connections := connections w; agents := x;
     answers := answers w; raising := raising w; refusing := refusing w |}.

Definition http (code : Z) (why : string) (u : string) : Response :=
  {| status_code := code; reason := why; url := u; response_text := "{}" |}.

(** The answer of the services when no failure is injected. *)
Definition answer {R} (w : store) (r : request R) : result R * store :=
  match r in request T return result T * store with
  | create_or_update_knowledge_source _ ks =>
      (Return tt, with_sources w ({[ ks_name ks ]} ∪ sources w))
  | create_or_update_knowledge_base _ kb =>
      if forallb (λ s, bool_decide (ref_name s ∈ sources w)) (knowledge_sources kb)
      then (Return tt, with_bases w ({[ kb_name kb ]} ∪ bases w))
      else (Raise (OtherException "HttpResponseError" "knowledge source not found"), w)
  | delete_knowledge_base _ name => (Return tt, with_bases w (bases w ∖ {[ name ]}))
  | delete_knowledge_source _ name => (Return tt, with_sources w (sources w ∖ {[ name ]}))
  | agents_create_version _ name _ =>
      let v := pretty (Z.of_nat (S (length (List.filter (λ p, bool_decide (p.1 = name))
                                                       (agents w))))) in
      (Return {| version := v |}, with_agents w (agents w ++ [(name, v)]))
  | agents_delete_version _ name v =>
      (Return tt,
       with_agents w (List.filter (λ p, negb (bool_decide (p = (name, v)))) (agents w)))
  | retrieve _ _ _ => (Return {| response := answers w |}, w)
  | get_bearer_token _ => (Return "token", w)
  | requests_put u _ body =>
      (Return (http 200 "OK" u),
       with_connections w (<[u := target (properties body)]> (connections w)))
  | requests_delete u _ =>
      match connections w !! u with
      | Some _ => (Return (http 200 "OK" u), with_connections w (delete u (connections w)))
      | None => (Return (http 404 "Not Found" u), w)
      end
  end.

(** An HTTP operation refused with status [code]. *)
Definition refuse {R} (code : Z) (r : request R) : option (result R) :=
  match r in request T return option (result T) with
  | requests_put u _ _ => Some (Return (http code "Error" u))
  | requests_delete u _ => Some (Return (http code "Error" u))
  | _ => None
  end.

Definition serve (R : Type) (w : store) (r : request R) : result R * store :=
  match lookup_op (op_of r) (raising w) with
  | Some e => (Raise e, w)
  | None =>
    match lookup_op (op_of r) (refusing w) ≫= (λ code, refuse code r) with
    | Some o => (o, w)
    | None => answer w r
    end
  end.

(** Run the script from a fresh process. *)
Definition run (c : cli) (environ : gmap string string) (w : store) : Z * state store :=
  script serve c environ (boot w).

Definition environment : gmap string string :=
  <["AZURE_SEARCH_ENDPOINT" := "https://search.example"]>
  (<["AZURE_OPENAI_ENDPOINT" := "https://aoai.example"]>
  (<["PROJECT_ENDPOINT" := "https://project.example"]>
  (<["PROJECT_RESOURCE_ID" := "/subscriptions/s/projects/p"]> ∅))).

(** [demo --index-name my-index --agent-name demo --reasoning low], with
    the reasoning level, the test query and the cleanup flag as given. *)
Definition demo_with (level : string) (query : option string) (clean : bool) : cli :=
  {| opt_index_name := Some "my-index"; opt_agent_name := Some "demo";
     opt_model := None; opt_reasoning := Some level; opt_source_fields := None;
     opt_test_query := query; opt_cleanup := clean |}.

Definition demo : cli := demo_with "low" None false.

Definition demo_args : Namespace :=
  {| index_name := "my-index"; agent_name := "demo"; model := "gpt-4.1-mini";
     reasoning := "low"; source_fields := ["id"; "title"];
     test_query := None; cleanup := false |}.

Definition demo_query_args : Namespace :=
  {| index_name := "my-index"; agent_name := "demo"; model := "gpt-4.1-mini";
     reasoning := "low"; source_fields := ["id"; "title"];
     test_query := Some "what is indexed?"; cleanup := false |}.

Definition builder : FoundryIQAgentBuilder :=
  {| search_endpoint := "https://search.example";
     aoai_endpoint := "https://aoai.example";
     project_endpoint := "https://project.example";
     project_resource_id := "/subscriptions/s/projects/p" |}.

(** A backend on which operation [o] raises [e]. *)
Definition failing (o : op) (e : exn) : store :=
  {| sources := ∅; bases := ∅; connections := ∅; agents := [];
     answers := answers empty; raising := [(o, e)]; refusing := [] |}.

(** A backend that answers the connection PUT with status [code]. *)
Definition refusing_put (code : Z) : store :=
  {| sources := ∅; bases := ∅; connections := ∅; agents := [];
     answers := answers empty; raising := []; refusing := [(HttpPut, code)] |}.


End Memory.

(** ** Reading a trace *)

(** The resources the script creates, with what identifies them. *)
Inductive resource :=
| KnowledgeSourceNamed (name : string)
| KnowledgeBaseNamed (name : string)
| ConnectionNamed (name : string) (target_url : string)
| AgentNamed (name : string).

(** The resource a request asks to create, if it is a creation. *)
Definition creates {R} (r : request R) : option resource :=
  match r with
  | create_or_update_knowledge_source _ ks => Some (KnowledgeSourceNamed (ks_name ks))
  | create_or_update_knowledge_base _ kb => Some (KnowledgeBaseNamed (kb_name kb))
  | requests_put _ _ body =>
      Some (ConnectionNamed (conn_name body) (target (properties body)))
  | agents_create_version _ name _ => Some (AgentNamed name)
  | _ => None
  end.

(** The exception a call ends in, as the script sees it: the one the call
    raises, or for the connection PUT the one [raise_for_status] raises on its
    response.  The status of the connection DELETE is never read. *)
Definition error_of {R} (r : request R) : result R → option exn :=
  match r in request T return result T → option exn with
  | requests_put _ _ _ => λ o,
      match o with
      | Return resp =>
          match raise_for_status resp with Raise e => Some e | Return _ => None end
      | Raise e => Some e
      end
  | _ => λ o, match o with Raise e => Some e | Return _ => None end
  end.

(** Whether a call succeeded in the eyes of the script. *)
Definition went_through {R} (r : request R) (o : result R) : bool :=
  match error_of r o with None => true | Some _ => false end.

Definition event_creates (e : event) : option resource :=
  match e with Event r _ => creates r end.

Definition event_went_through (e : event) : bool :=
  match e with Event r o => went_through r o end.

Definition event_error (e : event) : option exn :=
  match e with Event r o => error_of r o end.

(** The resources created, in the order of their creation. *)
Definition created (t : list event) : list resource :=
  omap (λ e, if event_went_through e then event_creates e else None) t.

(** The creations requested, granted or not. *)
Definition requested (t : list event) : list resource := omap event_creates t.

(** The calls that failed. *)
Definition failures (t : list event) : list event :=
  List.filter (λ e, negb (event_went_through e)) t.

(** The retrieval endpoint of knowledge base [name] on a search service. *)
Definition retrieval_endpoint (search : string) (name : string) : string :=
  search +:+ "/knowledgebases/" +:+ name +:+ "/mcp?api-version=" +:+ API_VERSION.

(** The four resources derived from an agent name, in dependency order. *)
Definition chain (search : string) (agent : string) : list resource :=
  [ KnowledgeSourceNamed ("ks-" +:+ agent);
    KnowledgeBaseNamed ("kb-" +:+ agent);
    ConnectionNamed ("conn-" +:+ agent) (retrieval_endpoint search ("kb-" +:+ agent));
    AgentNamed agent ].

(** Whether [needle] occurs in [hay]. *)
Fixpoint occurs (needle hay : string) : bool :=
  String.prefix needle hay ||
  match hay with
  | String _ rest => occurs needle rest
  | EmptyString => false
  end.

(** What the [except] clauses of [main] print for an exception. *)
Definition report (e : exn) : list string :=
  match e with
  | HTTPError msg (Some r) =>
      [nl +:+ "✗ API Error: " +:+ msg; "  Response: " +:+ slice_to 500 (response_text r)]
  | HTTPError msg None => [nl +:+ "✗ API Error: " +:+ msg]
  | _ => [nl +:+ "✗ Error: " +:+ exn_str e]
  end.

(** What a deletion request removes. *)
Inductive removal :=
| AgentVersionOf (name version : string)
| ConnectionAt (connection : string)
| KnowledgeBaseOf (name : string)
| KnowledgeSourceOf (name : string).

Definition removes {R} (r : request R) : option removal :=
  match r with
  | agents_delete_version _ name v => Some (AgentVersionOf name v)
  | requests_delete u _ => Some (ConnectionAt u)
  | delete_knowledge_base _ name => Some (KnowledgeBaseOf name)
  | delete_knowledge_source _ name => Some (KnowledgeSourceOf name)
  | _ => None
  end.

Definition event_removes (e : event) : option removal :=
  match e with Event r _ => removes r end.

(** The deletions attempted, in order. *)
Definition attempted_deletions (t : list event) : list removal := omap event_removes t.

(** The exception a call raised, if it raised. *)
Definition event_raised (e : event) : option exn :=
  match e with
  | Event _ (Raise x) => Some x
  | Event _ (Return _) => None
  end.

(** The calls that raised. *)
Definition raises (t : list event) : list exn := omap event_raised t.

(** What [delete_resources] is to delete when every name is given. *)
Definition teardown_plan (self : FoundryIQAgentBuilder)
    (agent version connection kb ks : string) : list removal :=
  [ AgentVersionOf agent version;
    ConnectionAt (connection_url self connection);
    KnowledgeBaseOf kb;
    KnowledgeSourceOf ks ].

(** [result.response[0].content[0].text] *)
Definition first_text (answer : KnowledgeBaseRetrievalResponse) : result string :=
  match index0 (response answer) with
  | Return message =>
      match index0 (content message) with
      | Return item => Return (text item)
      | Raise e => Raise e
      end
  | Raise e => Raise e
  end.

(** The retrievals requested: knowledge base, knowledge sources, query texts. *)
Definition event_retrieves (e : event) : option (string * list string * list string) :=
  match e with
  | Event (retrieve _ kb req) _ =>
      Some (kb, knowledge_source_name <$> knowledge_source_params req,
            text <$> concat (content <$> messages req))
  | _ => None
  end.

Definition retrievals (t : list event) : list (string * list string * list string) :=
  omap event_retrieves t.

(** The retrieval results that came back. *)
Definition event_retrieved (e : event) : option KnowledgeBaseRetrievalResponse :=
  match e with
  | Event (retrieve _ _ _) (Return answer) => Some answer
  | _ => None
  end.

Definition retrieved (t : list event) : list KnowledgeBaseRetrievalResponse :=
  omap event_retrieved t.

(** The citation fields of the knowledge sources requested. *)
Definition event_citation_fields (e : event) : option (list string) :=
  match e with
  | Event (create_or_update_knowledge_source _ ks) _ =>
      Some (field_name <$> source_data_fields (search_index_parameters ks))
  | _ => None
  end.

Definition citation_fields (t : list event) : list (list string) :=
  omap event_citation_fields t.

(** The model bindings of the knowledge bases requested. *)
Definition event_model_bindings (e : event) : list AzureOpenAIVectorizerParameters :=
  match e with
  | Event (create_or_update_knowledge_base _ kb) _ =>
      azure_open_ai_parameters <$> models kb
  | _ => []
  end.

Definition model_bindings (t : list event) : list AzureOpenAIVectorizerParameters :=
  concat (event_model_bindings <$> t).

(** The reasoning efforts of the knowledge bases requested. *)
Definition event_effort (e : event) : option KnowledgeRetrievalReasoningEffort :=
  match e with
  | Event (create_or_update_knowledge_base _ kb) _ => Some (retrieval_reasoning_effort kb)
  | _ => None
  end.

Definition efforts (t : list event) : list KnowledgeRetrievalReasoningEffort :=
  omap event_effort t.

(** The progress lines of the four creation steps. *)
Definition progress (args : Namespace) (v : string) : list string :=
  [ "✓ Knowledge source '" +:+ ("ks-" +:+ agent_name args) +:+ "' created from index '"
      +:+ index_name args +:+ "'";
    "✓ Knowledge base '" +:+ ("kb-" +:+ agent_name args) +:+ "' created";
    "✓ Project connection '" +:+ ("conn-" +:+ agent_name args) +:+ "' created";
    "✓ Agent '" +:+ agent_name args +:+ "' created (version: " +:+ v +:+ ")" ].

(** [s'] is [s] after the calls [t] and the output [out]. *)
Definition extends {World} (s s' : state World) (t : list event) (out : list string) : Prop :=
  trace s' = (trace s ++ t)%list ∧ stdout s' = (stdout s ++ out)%list.

(** Every run of [c] adds calls that satisfy [P]. *)
Definition emits {World A} (P : list event → Prop) (c : M World A) : Prop :=
  ∀ s, ∃ t out, extends s (c s).2 t out ∧ P t.

(** Calls that neither create nor retrieve. *)
Definition quiet (t : list event) : Prop := requested t = [] ∧ retrieved t = [].

(** The agent versions requested: name and definition. *)
Definition event_agent (e : event) : option (string * PromptAgentDefinition) :=
  match e with
  | Event (agents_create_version _ name definition) _ => Some (name, definition)
  | _ => None
  end.

Definition agents_requested (t : list event) : list (string * PromptAgentDefinition) :=
  omap event_agent t.

(** The versions the agent service issued. *)
Definition event_version (e : event) : option string :=
  match e with
  | Event (agents_create_version _ _ _) (Return a) => Some (version a)
  | _ => None
  end.

Definition versions_issued (t : list event) : list string := omap event_version t.

(** The URLs of the connection PUTs. *)
Definition event_put_url (e : event) : option string :=
  match e with
  | Event (requests_put u _ _) _ => Some u
  | _ => None
  end.

Definition put_urls (t : list event) : list string := omap event_put_url t.

(** The knowledge sources the requested knowledge bases refer to. *)
Definition event_kb_sources (e : event) : option (list string) :=
  match e with
  | Event (create_or_update_knowledge_base _ kb) _ =>
      Some (ref_name <$> knowledge_sources kb)
  | _ => None
  end.

Definition kb_sources (t : list event) : list (list string) := omap event_kb_sources t.

(** The value of the [Authorization] header. *)
Definition authorization (headers : list (string * string)) : option string :=
  snd <$> List.find (λ h, bool_decide (h.1 = "Authorization")) headers.

(** Every HTTP request carries, as bearer, the token that the call just
    before it obtained for the management scope.  [token] is the token the
    previous call returned, if it was such a call. *)
Fixpoint authorized (token : option string) (t : list event) : bool :=
  match t with
  | [] => true
  | Event (get_bearer_token scope) (Return tok) :: t' =>
      if bool_decide (scope = "https://management.azure.com/.default")
      then authorized (Some tok) t'
      else authorized None t'
  | Event (requests_put _ headers _) _ :: t' =>
      match token with
      | Some tok =>
          bool_decide (authorization headers = Some ("Bearer " +:+ tok))
          && authorized None t'
      | None => false
      end
  | Event (requests_delete _ headers) _ :: t' =>
      match token with
      | Some tok =>
          bool_decide (authorization headers = Some ("Bearer " +:+ tok))
          && authorized None t'
      | None => false
      end
  | _ :: t' => authorized None t'
  end.

(** Whatever is given and not empty. *)
Definition given (o : option string) : option string :=
  match o with
  | Some (String a s) => Some (String a s)
  | _ => None
  end.

(** What [delete_resources] is to delete for the names it is given. *)
Definition teardown_plan_given (self : FoundryIQAgentBuilder)
    (agent version connection kb ks : option string) : list removal :=
  match given agent, given version with
  | Some a, Some v => [AgentVersionOf a v]
  | _, _ => []
  end
  ++ match given connection with
     | Some c => [ConnectionAt (connection_url self c)]
     | None => []
     end
  ++ match given kb with Some k => [KnowledgeBaseOf k] | None => [] end
  ++ match given ks with Some k => [KnowledgeSourceOf k] | None => [] end.

(** A computation that is to delete [plan]: it attempts a prefix of it,
    all of it exactly when it returns, and a call that raises is its last. *)
Definition deletes {World A} (plan : list removal) (c : M World A) : Prop :=
  ∀ s, ∃ t,
    trace (c s).2 = (trace s ++ t)%list ∧
    attempted_deletions t `prefix_of` plan ∧
    match (c s).1 with
    | Return _ => attempted_deletions t = plan ∧ raises t = []
    | Raise e => ∃ t0 ev, t = (t0 ++ [ev])%list ∧ event_raised ev = Some e ∧ raises t0 = []
    end.

(** A computation in which a failed call is the last call: it returns only
    if every call went through, and raises only from a call that failed. *)
Definition halts_on_failure {World A} (c : M World A) : Prop :=
  ∀ s, ∃ t,
    trace (c s).2 = (trace s ++ t)%list ∧
    match (c s).1 with
    | Return _ => failures t = []
    | Raise e => ∃ t0 ev, t = (t0 ++ [ev])%list ∧ event_error ev = Some e ∧ failures t0 = []
    end.

(** Whether a call goes where the builder [self] and the agent name say:
    search calls to the search endpoint, agent calls to the project
    endpoint, tokens for the management scope, and HTTP requests to the URL
    of the connection [conn-<agent>] of the project. *)
Definition addressed (self : FoundryIQAgentBuilder) (agent : string) (e : event) : bool :=
  match e with
  | Event (create_or_update_knowledge_source ep _) _
  | Event (create_or_update_knowledge_base ep _) _
  | Event (delete_knowledge_base ep _) _
  | Event (delete_knowledge_source ep _) _
  | Event (retrieve ep _ _) _ => bool_decide (ep = search_endpoint self)
  | Event (agents_create_version ep _ _) _
  | Event (agents_delete_version ep _ _) _ => bool_decide (ep = project_endpoint self)
  | Event (get_bearer_token scope) _ =>
      bool_decide (scope = "https://management.azure.com/.default")
  | Event (requests_put u _ _) _
  | Event (requests_delete u _) _ =>
      bool_decide (u = "https://management.azure.com" +:+ project_resource_id self
                         +:+ "/connections/conn-" +:+ agent
                         +:+ "?api-version=2025-10-01-preview")
  end.

(** Appending to the output. *)
Definition say {World} (s : state World) (lines : list string) : state World :=
  {| world := world s; trace := trace s; stdout := stdout s ++ lines |}.

(** * Properties *)

Section Properties.

Context {World : Type}.
Variable serve : ∀ R, World → request R → result R * World.

Abbreviation M := (M World).
Abbreviation state := (state World).

(** ** The monad *)

Lemma bind_assoc {A B C} (c : M A) (f : A → M B) (g : B → M C) s :
  bind (bind c f) g s = bind c (λ a, bind (f a) g) s.
Proof. unfold bind. by destruct (c s) as [[a|e] s']. Qed.

Lemma ret_bind {A B} (a : A) (k : A → M B) s : bind (ret a) k s = k a s.
Proof. done. Qed.

Lemma bind_ret {A} (c : M A) s : bind c ret s = c s.
Proof. unfold bind, ret. by destruct (c s) as [[a|e] s']. Qed.

Lemma say_nil (s : state) : say s [] = s.
Proof. destruct s. unfold say. cbn. by rewrite app_nil_r. Qed.

Lemma say_say (s : state) l1 l2 : say (say s l1) l2 = say s (l1 ++ l2).
Proof. unfold say. cbn. by rewrite app_assoc. Qed.

Lemma main_except_run e (s : state) : main_except e s = (Return 1, say s (report e)).
Proof.
  destruct e as [msg [r|]| | |]; cbn; unfold bind, print, ret, say; cbn;
    by rewrite <- ?app_assoc.
Qed.

(** ** Pre-flight validation *)

Lemma validate_environment_true environ (s : state) :
  missing_vars environ = [] →
  validate_environment environ s = (Return true, s).
Proof. intros H. unfold validate_environment. by rewrite H. Qed.

Lemma for_each_print (l : list string) (s : state) :
  for_each l (λ var, print ("  - " +:+ var)) s
  = (Return tt, say s ((λ var, "  - " +:+ var) <$> l)).
Proof.
  revert s. induction l as [|x l IH]; intros s; cbn.
  - by rewrite say_nil.
  - unfold bind. cbn. rewrite IH. unfold say. cbn. by rewrite <- app_assoc.
Qed.

Lemma validate_environment_false environ (s : state) :
  missing_vars environ ≠ [] →
  validate_environment environ s
  = (Return false,
     say s ("Missing required environment variables:"
              :: ((λ var, "  - " +:+ var) <$> missing_vars environ))).
Proof.
  intros H. unfold validate_environment.
  destruct (missing_vars environ) as [|v l]; [done|].
  unfold bind at 1, print at 1. cbv beta iota.
  unfold bind at 1. rewrite for_each_print. unfold say. cbn. by rewrite <- app_assoc.
Qed.

Lemma init_valid environ :
  missing_vars environ = [] →
  ∃ b, FoundryIQAgentBuilder_init environ = Return b
       ∧ environ !! "AZURE_SEARCH_ENDPOINT" = Some (search_endpoint b)
       ∧ environ !! "AZURE_OPENAI_ENDPOINT" = Some (aoai_endpoint b)
       ∧ environ !! "PROJECT_ENDPOINT" = Some (project_endpoint b)
       ∧ environ !! "PROJECT_RESOURCE_ID" = Some (project_resource_id b).
Proof.
  unfold missing_vars, REQUIRED_ENV_VARS, FoundryIQAgentBuilder_init, environ_getitem.
  cbn [List.filter].
  destruct (environ !! "AZURE_SEARCH_ENDPOINT") as [[|]|]; cbn; try done.
  destruct (environ !! "AZURE_OPENAI_ENDPOINT") as [[|]|]; cbn; try done.
  destruct (environ !! "PROJECT_ENDPOINT") as [[|]|]; cbn; try done.
  destruct (environ !! "PROJECT_RESOURCE_ID") as [[|]|]; cbn; try done.
  intros _. eexists. split; [reflexivity|]. by cbn.
Qed.

(** ** [main] is the sequence of its phases *)

Lemma main_phases args environ b (s : state) :
  missing_vars environ = [] →
  FoundryIQAgentBuilder_init environ = Return b →
  main serve args environ s =
  match provisioning serve b args s with
  | (Raise e, s1) => main_except e s1
  | (Return (mcp_endpoint, agent), s1) =>
    match smoke_test serve b args s1 with
    | (Raise e, s2) => main_except e s2
    | (Return _, s2) =>
      match finish serve b args mcp_endpoint agent s2 with
      | (Raise e, s3) => main_except e s3
      | (Return code, s3) => (Return code, s3)
      end
    end
  end.
Proof.
  intros Hv Hb. unfold main.
  unfold bind at 1. rewrite validate_environment_true by done. cbn [negb].
  unfold bind at 1, lift at 1. rewrite Hb. cbv beta iota zeta.
  unfold try_except, provisioning, finish, smoke_test, bind, ret.
  destruct (create_knowledge_source serve b _ _ _ s) as [[?|?] s1]; [|done].
  destruct (create_knowledge_base serve b _ _ _ _ s1) as [[[kb ep]|?] s2]; [|done].
  destruct (create_project_connection serve b _ _ s2) as [[?|?] s3]; [|done].
  destruct (create_agent serve b _ _ _ _ _ s3) as [[agent|?] s4]; [|done].
  destruct (when_truthy _ _ s4) as [[?|?] s5]; [|done].
  unfold print. cbv beta iota.
  destruct (cleanup args); [|done].
  by destruct (delete_resources _ _ _ _ _ _ _ _) as [[?|?] s6].
Qed.

(** ** Composing what a computation emits *)

Lemma extends_refl (s : state) : extends s s [] [].
Proof. unfold extends. by rewrite !app_nil_r. Qed.

Lemma extends_trans (s1 s2 s3 : state) t1 o1 t2 o2 :
  extends s1 s2 t1 o1 → extends s2 s3 t2 o2 → extends s1 s3 (t1 ++ t2) (o1 ++ o2).
Proof. unfold extends. intros [-> ->] [-> ->]. by rewrite !app_assoc. Qed.

Section Emits.

Variable P : list event → Prop.
Hypothesis P_nil : P [].
Hypothesis P_app : ∀ t1 t2, P t1 → P t2 → P (t1 ++ t2).

Lemma emits_ret {A} (a : A) : emits P (ret (World := World) a).
Proof. intros s. exists [], []. split; [apply extends_refl | done]. Qed.

Lemma emits_lift {A} (r : result A) : emits P (lift (World := World) r).
Proof. intros s. exists [], []. split; [apply extends_refl | done]. Qed.

Lemma emits_print line : emits P (print (World := World) line).
Proof.
  intros s. exists [], [line]. split; [|done].
  unfold extends, print. cbn. by rewrite app_nil_r.
Qed.

Lemma emits_call {R} (r : request R) :
  (∀ o, P [Event r o]) → emits P (call serve r).
Proof.
  intros H s. unfold call. destruct (serve R (world s) r) as [o w'].
  exists [Event r o], []. split; [|done].
  unfold extends. cbn. by rewrite app_nil_r.
Qed.

Lemma emits_bind {A B} (c : M A) (k : A → M B) :
  emits P c → (∀ a, emits P (k a)) → emits P (bind c k).
Proof.
  intros Hc Hk s. unfold bind.
  destruct (Hc s) as (t1 & o1 & H1 & P1).
  destruct (c s) as [[a|e] s1]; cbn in H1.
  - destruct (Hk a s1) as (t2 & o2 & H2 & P2).
    exists (t1 ++ t2), (o1 ++ o2). split; [by eapply extends_trans | by apply P_app].
  - by exists t1, o1.
Qed.

Lemma emits_when_truthy (o : option string) (body : string → M unit) :
  (∀ x, emits P (body x)) → emits P (when_truthy o body).
Proof.
  intros H. destruct o as [[|a x]|]; cbn; [apply emits_ret | apply H | apply emits_ret].
Qed.

End Emits.

Ltac emits_steps :=
  repeat first
    [ apply emits_bind; [assumption | | intros ?]
    | apply emits_when_truthy; [assumption | intros ?]
    | apply emits_print; assumption
    | apply emits_ret; assumption
    | apply emits_lift; assumption
    | apply emits_call; intros ?; done ].

Lemma requested_app t1 t2 : requested (t1 ++ t2) = (requested t1 ++ requested t2)%list.
Proof. apply omap_app. Qed.

Lemma created_app t1 t2 : created (t1 ++ t2) = (created t1 ++ created t2)%list.
Proof. apply omap_app. Qed.

Lemma attempted_deletions_app t1 t2 :
  attempted_deletions (t1 ++ t2) = (attempted_deletions t1 ++ attempted_deletions t2)%list.
Proof. apply omap_app. Qed.

Lemma raises_app t1 t2 : raises (t1 ++ t2) = (raises t1 ++ raises t2)%list.
Proof. apply omap_app. Qed.

Lemma failures_app t1 t2 : failures (t1 ++ t2) = (failures t1 ++ failures t2)%list.
Proof. apply List.filter_app. Qed.

Lemma requested_nil_created t : requested t = [] → created t = [].
Proof.
  induction t as [|e t IH]; [done|]. unfold requested, created. cbn.
  destruct (event_creates e) eqn:E; [done|]. intros H.
  destruct (event_went_through e); cbn; rewrite ?E; by apply IH.
Qed.

Lemma retrieved_app t1 t2 : retrieved (t1 ++ t2) = (retrieved t1 ++ retrieved t2)%list.
Proof. apply omap_app. Qed.

Lemma quiet_app t1 t2 : quiet t1 → quiet t2 → quiet (t1 ++ t2).
Proof.
  unfold quiet. rewrite requested_app, retrieved_app. by intros [-> ->] [-> ->].
Qed.

Lemma delete_resources_quiet b an av cn kn sn :
  emits quiet (delete_resources serve b an av cn kn sn).
Proof.
  unfold delete_resources, _get_management_token.
  pose proof quiet_app. assert (quiet []) by done.
  emits_steps.
Qed.

(** ** The creation steps *)

Ltac expose :=
  cbv beta iota zeta delta
    [bind call print ret lift try_except when_truthy create_knowledge_source
     create_knowledge_base create_project_connection create_agent query_knowledge_base
     delete_resources _get_management_token world trace stdout].

Ltac crank :=
  match goal with
  | |- context [serve ?R ?w ?r] =>
      let o := fresh "o" in let w' := fresh "w" in let E := fresh "E" in
      destruct (serve R w r) as [o w'] eqn:E; destruct o
  | |- context [match raise_for_status ?r with _ => _ end] =>
      destruct (raise_for_status r) eqn:?
  end; cbv beta iota zeta.

Lemma field_names_sent (l : list string) :
  field_name <$> ((λ f, {| field_name := f |}) <$> l) = l.
Proof. induction l as [|x l IH]; cbn; congruence. Qed.

Ltac observe :=
  cbn; unfold went_through; cbn;
  try match goal with H : raise_for_status _ = _ |- _ => rewrite !H end;
  cbn.

Ltac split_last :=
  first [ eexists [], _; split; [reflexivity|]
        | eexists [_], _; split; [reflexivity|]
        | eexists [_; _], _; split; [reflexivity|]
        | eexists [_; _; _], _; split; [reflexivity|]
        | eexists [_; _; _; _], _; split; [reflexivity|]
        | eexists [_; _; _; _; _], _; split; [reflexivity|] ].

Lemma provisioning_summary b args (s : state) :
  ∃ r s' t out,
    provisioning serve b args s = (r, s') ∧ extends s s' t out ∧
    attempted_deletions t = [] ∧
    created t `prefix_of` chain (search_endpoint b) (agent_name args) ∧
    citation_fields t = [source_fields args] ∧
    retrieved t = [] ∧
    Forall (λ p, p = {| resource_url := aoai_endpoint b;
                        deployment_name := model args;
                        model_name := model args |}) (model_bindings t) ∧
    match r with
    | Return (mcp_endpoint, agent) =>
        mcp_endpoint = retrieval_endpoint (search_endpoint b) ("kb-" +:+ agent_name args) ∧
        created t = chain (search_endpoint b) (agent_name args) ∧
        requested t = chain (search_endpoint b) (agent_name args) ∧
        failures t = [] ∧
        out = progress args (version agent)
    | Raise e =>
        (length (created t) < 4)%nat ∧
        out = take (length (created t)) (progress args EmptyString) ∧
        ∃ t0 ev, t = (t0 ++ [ev])%list ∧ event_error ev = Some e ∧ failures t0 = []
    end.
Proof.
  unfold provisioning. destruct s as [w t0 out0]. expose. repeat crank.
  all: eexists _, _, _, _; (split; [reflexivity|]).
  all: (split; [split; cbn; rewrite <- ?app_assoc;
                 first [reflexivity | symmetry; apply app_nil_r]|]).
  all: unfold created, requested, failures, attempted_deletions, chain,
         retrieval_endpoint, progress.
  all: observe.
  all: (split; [reflexivity|]); (split; [by eexists|]).
  all: (split; [by rewrite <- (field_names_sent (source_fields args)) at 2|]).
  all: (split; [reflexivity|]).
  all: (split; [unfold model_bindings; cbn; repeat constructor|]).
  all: try done.
  all: (split; [lia|]); (split; [reflexivity|]).
  all: split_last; by observe.
Qed.

(** ** The test query *)

Lemma smoke_test_summary b args (s : state) :
  ∃ r s' t out,
    smoke_test serve b args s = (r, s') ∧ extends s s' t out ∧
    requested t = [] ∧ attempted_deletions t = [] ∧
    match test_query args with
    | Some (String a q) =>
        retrievals t
          = [("kb-" +:+ agent_name args, ["ks-" +:+ agent_name args], [String a q])] ∧
        length t = 1%nat ∧
        match r with
        | Return _ =>
            ∃ answer txt,
              retrieved t = [answer] ∧ first_text answer = Return txt ∧ failures t = [] ∧
              out = [nl +:+ "Testing knowledge base: " +:+ String a q;
                     "Response: " +:+ slice_to 500 txt +:+ "..."]
        | Raise e =>
            out = [nl +:+ "Testing knowledge base: " +:+ String a q] ∧
            (raises t = [e] ∧ retrieved t = []
             ∨ ∃ answer, retrieved t = [answer] ∧ raises t = [] ∧
                 first_text answer = Raise e ∧
                 e = IndexError "list index out of range")
        end
    | _ => r = Return tt ∧ t = [] ∧ out = []
    end.
Proof.
  unfold smoke_test. destruct s as [w t0 out0].
  destruct (test_query args) as [[|a q]|]; cbn [when_truthy].
  1,3: by eexists _, _, [], []; split; [reflexivity|]; split; [apply extends_refl|].
  expose. crank.
  - destruct a0 as [[|[role0 [|item items]] messages0]]; cbn.
    all: eexists _, _, _, _; (split; [reflexivity|]).
    all: (split; [split; cbn; rewrite <- ?app_assoc; reflexivity|]).
    all: do 4 (split; [reflexivity|]).
    1,2: split; [reflexivity|]; right; by eexists.
    by eexists _, _.
  - eexists _, _, _, _; (split; [reflexivity|]).
    (split; [split; cbn; rewrite <- ?app_assoc; reflexivity|]).
    do 4 (split; [reflexivity|]). split; [reflexivity|]. by left.
Qed.

(** ** After the test query *)

Lemma finish_summary b args mcp_endpoint agent (s : state) :
  ∃ r s' t out,
    finish serve b args mcp_endpoint agent s = (r, s') ∧ extends s s' t out ∧
    quiet t ∧
    (cleanup args = false → t = [] ∧ r = Return 0) ∧
    (∀ code, r = Return code → code = 0).
Proof.
  unfold finish. destruct (cleanup args).
  - unfold bind at 1, print at 1. cbv beta iota.
    unfold bind at 1, print at 1. cbv beta iota.
    unfold bind at 1. unfold bind at 1, print at 1. cbv beta iota.
    match goal with |- context [delete_resources serve b ?a1 ?a2 ?a3 ?a4 ?a5 ?s0] =>
      destruct (delete_resources_quiet b a1 a2 a3 a4 a5 s0) as (t & out & [Ht Ho] & Hq);
      destruct (delete_resources serve b a1 a2 a3 a4 a5 s0) as [[[]|e] s1]
    end; cbn in Ht, Ho.
    + eexists _, _, t, _. split; [reflexivity|]. unfold ret. cbn.
      split; [split; [done|]|].
      { rewrite Ho. rewrite <- !app_assoc. reflexivity. }
      split; [done|]. split; [done|]. by intros code [= <-].
    + eexists _, _, t, _. split; [reflexivity|]. cbn.
      split; [split; [done|]|].
      { rewrite Ho. rewrite <- !app_assoc. reflexivity. }
      split; [done|]. split; [done|]. by intros code [=].
  - eexists _, _, [], _. split; [reflexivity|].
    split; [split; cbn; rewrite <- ?app_assoc; [by rewrite app_nil_r | reflexivity]|].
    split; [done|]. split; [done|]. by intros code [= <-].
Qed.

(** ** The whole script *)

Lemma main_invalid args environ (s : state) :
  missing_vars environ ≠ [] →
  main serve args environ s
  = (Return 1,
     say s ("Missing required environment variables:"
              :: ((λ var, "  - " +:+ var) <$> missing_vars environ))).
Proof.
  intros Hv. unfold main, bind. by rewrite validate_environment_false.
Qed.


Ltac by_phases b args w :=
  destruct (provisioning_summary b args (boot w))
    as (r1 & s1 & t1 & o1 & E1 & [T1 O1] & D1 & Pre1 & F1 & V1 & B1 & R1);
  rewrite E1; cbn in T1, O1;
  destruct r1 as [[ep agent]|e1];
  [ destruct (smoke_test_summary b args s1)
      as (r2 & s2 & t2 & o2 & E2 & [T2 O2] & Q2 & D2 & R2);
    rewrite E2;
    destruct r2 as [[]|e2];
    [ destruct (finish_summary b args ep agent s2)
        as (r3 & s3 & t3 & o3 & E3 & [T3 O3] & [Q3 V3] & C3 & Z3);
      rewrite E3;
      destruct r3 as [code|e3] | ] | ];
  rewrite ?main_except_run; cbn [fst snd say trace stdout world].


(** ** Pre-flight failures *)

Lemma missing_vars_elem environ v :
  v ∈ REQUIRED_ENV_VARS → truthy (environ !! v) = false → missing_vars environ ≠ [].
Proof.
  intros Hin Hv Hnil.
  assert (In v (missing_vars environ)) as Hm.
  { apply List.filter_In. split; [by apply list_elem_of_In | by rewrite Hv]. }
  by rewrite Hnil in Hm.
Qed.

Lemma script_invalid c environ w :
  missing_vars environ ≠ [] →
  let run := script serve c environ (boot w) in
  run.1 ≠ 0 ∧ trace run.2 = [] ∧ world run.2 = w.
Proof.
  intros Hv. unfold script. destruct (parse_args c) as [args|]; [|done].
  by rewrite main_invalid.
Qed.

(** C6. If a required environment variable (search endpoint, model
    endpoint, project endpoint, project resource path) is not set, the run
    exits with a non-zero status without a single call to a service: nothing
    is created and the backend is left as it was. *)
Theorem missing_configuration_fails_first c environ w v :
  v ∈ REQUIRED_ENV_VARS →
  environ !! v = None →
  let run := script serve c environ (boot w) in
  run.1 ≠ 0 ∧ trace run.2 = [] ∧ created (trace run.2) = [] ∧ world run.2 = w.
Proof.
  intros Hin Hv.
  destruct (script_invalid c environ w) as (H1 & H2 & H3).
  { apply (missing_vars_elem _ v); [done | by rewrite Hv]. }
  cbn zeta. by rewrite H2.
Qed.

Lemma missing_vars_empty_unset environ v :
  missing_vars (<[v := EmptyString]> environ) = missing_vars (delete v environ).
Proof.
  unfold missing_vars. apply List.filter_ext. intros x.
  destruct (decide (v = x)) as [->|Hne].
  - by rewrite lookup_insert_eq, lookup_delete_eq.
  - by rewrite lookup_insert_ne, lookup_delete_ne.
Qed.

(** C10. A required environment variable set to the empty string is
    treated as missing: the run behaves exactly as if the variable were
    unset (same exit status, same output, same calls), and it is rejected with
    a non-zero status before any call. *)
Theorem empty_variable_is_missing c environ w v :
  v ∈ REQUIRED_ENV_VARS →
  script serve c (<[v := EmptyString]> environ) (boot w)
    = script serve c (delete v environ) (boot w)
  ∧ (script serve c (<[v := EmptyString]> environ) (boot w)).1 ≠ 0
  ∧ trace (script serve c (<[v := EmptyString]> environ) (boot w)).2 = []
  ∧ (validate_environment (<[v := EmptyString]> environ) (boot w)).1 = Return false.
Proof.
  intros Hin.
  assert (missing_vars (<[v := EmptyString]> environ) ≠ []) as Hempty.
  { apply (missing_vars_elem _ v); [done | by rewrite lookup_insert_eq]. }
  assert (missing_vars (delete v environ) ≠ []) as Hunset.
  { by rewrite <- missing_vars_empty_unset. }
  split; [|split; [|split]].
  - unfold script. destruct (parse_args c) as [args|]; [|done].
    rewrite !main_invalid by done. by rewrite missing_vars_empty_unset.
  - by apply script_invalid.
  - by apply script_invalid.
  - by rewrite validate_environment_false.
Qed.

(** ** Defaults *)

Lemma quiet_citation_fields t : requested t = [] → citation_fields t = [].
Proof.
  unfold requested, citation_fields.
  induction t as [|[R r o] t IH]; [done|]. cbn.
  destruct r; cbn; try done.
  all: destruct (omap event_creates t); try done; intros _; by apply IH.
Qed.

Lemma quiet_model_bindings t : requested t = [] → model_bindings t = [].
Proof.
  unfold requested, model_bindings.
  induction t as [|[R r o] t IH]; [done|]. cbn.
  destruct r; cbn; try done.
  all: destruct (omap event_creates t); try done; intros _; by apply IH.
Qed.

Lemma citation_fields_app t1 t2 :
  citation_fields (t1 ++ t2) = citation_fields t1 ++ citation_fields t2.
Proof. apply omap_app. Qed.

Lemma model_bindings_app t1 t2 :
  model_bindings (t1 ++ t2) = model_bindings t1 ++ model_bindings t2.
Proof. unfold model_bindings. by rewrite fmap_app, concat_app. Qed.


(** The default of [create_knowledge_source] itself, three fields, is never
    used by [main], which always passes the parsed list. *)
Lemma create_knowledge_source_own_default b name index (s : state) :
  citation_fields (trace (create_knowledge_source serve b name index None s).2)
  = citation_fields (trace s) ++ [["id"; "title"; "content"]].
Proof.
  destruct s as [w t out]. expose. crank; cbn; by rewrite citation_fields_app.
Qed.

(** C8. Every knowledge base [create_knowledge_base] requests, and the one
    it returns, has a single model binding whose deployment name and model
    name are both the [model] argument and whose endpoint is the builder's
    model endpoint; in a run of the script that endpoint is the value of
    [AZURE_OPENAI_ENDPOINT] and the model is the [--model] option. *)
Theorem model_binding_from_single_parameter :
  (∀ b name sources model reasoning (s : state),
     let run := create_knowledge_base serve b name sources model reasoning s in
     let binding := {| resource_url := aoai_endpoint b;
                       deployment_name := model;
                       model_name := model |} in
     model_bindings (trace run.2) = model_bindings (trace s) ++ [binding]
     ∧ (∀ kb mcp_endpoint, run.1 = Return (kb, mcp_endpoint) →
        azure_open_ai_parameters <$> models kb = [binding]))
  ∧ (∀ c environ w args aoai,
       parse_args c = Some args →
       environ !! "AZURE_OPENAI_ENDPOINT" = Some aoai →
       Forall (λ p, resource_url p = aoai ∧ deployment_name p = model args
                    ∧ model_name p = model args)
         (model_bindings (trace (script serve c environ (boot w)).2))).
Proof.
  split.
  - intros b name sources model reasoning [w t out]. expose. crank; cbn [fst snd trace].
    all: split; [by rewrite model_bindings_app|].
    + by intros kb ep [= <- _].
    + done.
  - intros c environ w args aoai Hp Ha. unfold script. rewrite Hp.
    destruct (decide (missing_vars environ = [])) as [Hv|Hv].
    + destruct (init_valid _ Hv) as (b & Hb & _ & Hab & _).
      assert (aoai_endpoint b = aoai) as <- by congruence.
      rewrite (main_phases _ _ b) by done.
      assert (Forall (λ p, resource_url p = aoai_endpoint b ∧ deployment_name p = model args
                           ∧ model_name p = model args)
                (model_bindings (trace (provisioning serve b args (boot w)).2))) as Hprov.
      { destruct (provisioning_summary b args (boot w))
          as (r1 & s1 & t1 & o1 & E1 & [T1 O1] & _ & _ & _ & _ & B1 & _).
        rewrite E1. cbn in *. rewrite T1.
        eapply Forall_impl; [exact B1|]. by intros p ->. }
      by_phases b args w.
      all: rewrite E1 in Hprov; cbn in Hprov.
      * rewrite T3, T2, !model_bindings_app.
        by rewrite (quiet_model_bindings t2), (quiet_model_bindings t3), !app_nil_r.
      * rewrite T3, T2, !model_bindings_app.
        by rewrite (quiet_model_bindings t2), (quiet_model_bindings t3), !app_nil_r.
      * rewrite T2, !model_bindings_app.
        by rewrite (quiet_model_bindings t2), !app_nil_r.
      * done.
    + rewrite main_invalid by done. cbn. constructor.
Qed.

(** ** Teardown *)

(** C2, as the code has it.  With every name given, [delete_resources]
    attempts the deletions in the order agent version, connection, knowledge
    base, knowledge source, and stops at the first call that raises: what it
    attempted is a prefix of the plan, the raising call is the last one made
    and its exception is the only one there is.  It completes exactly when no
    call raises; the status of the connection DELETE is not looked at. *)
Theorem teardown_stops_at_first_failure b an av cn kn sn (s : state) :
  an ≠ EmptyString → av ≠ EmptyString → cn ≠ EmptyString →
  kn ≠ EmptyString → sn ≠ EmptyString →
  let run := delete_resources serve b (Some an) (Some av) (Some cn) (Some kn) (Some sn) s in
  ∃ t, trace run.2 = trace s ++ t ∧
    attempted_deletions t `prefix_of` teardown_plan b an av cn kn sn ∧
    match run.1 with
    | Return _ =>
        attempted_deletions t = teardown_plan b an av cn kn sn ∧ raises t = []
    | Raise e =>
        ∃ t0 ev, t = t0 ++ [ev] ∧ event_raised ev = Some e ∧ raises t0 = []
    end.
Proof.
  intros Han Hav Hcn Hkn Hsn.
  destruct an as [|a1 an]; [done|]. destruct av as [|a2 av]; [done|].
  destruct cn as [|a3 cn]; [done|]. destruct kn as [|a4 kn]; [done|].
  destruct sn as [|a5 sn]; [done|].
  destruct s as [w t0 out0]. expose. repeat crank.
  all: cbn [fst snd].
  all: eexists; (split; [rewrite <- ?app_assoc; reflexivity|]).
  all: (split; [by eexists|]).
  all: try done.
  all: by split_last.
Qed.

(** ** Partial failure *)

(** C3, as the code has it.  If the knowledge source and the knowledge
    base are the only resources a run creates, that is, steps 1 and 2
    succeed and step 3 does not, then the run exits with status 1 without
    attempting any deletion, its last call is the one that failed, and its
    output is the two progress lines of steps 1 and 2 followed by the report
    of the exception, which is made of the exception's own message only. *)
Theorem connection_failure_no_rollback c environ w args :
  parse_args c = Some args →
  let run := script serve c environ (boot w) in
  created (trace run.2) = [ KnowledgeSourceNamed ("ks-" +:+ agent_name args);
                           KnowledgeBaseNamed ("kb-" +:+ agent_name args) ] →
  run.1 = 1
  ∧ attempted_deletions (trace run.2) = []
  ∧ ∃ e t0 ev,
      trace run.2 = t0 ++ [ev] ∧ event_error ev = Some e ∧ failures t0 = []
      ∧ stdout run.2 = take 2 (progress args EmptyString) ++ report e.
Proof.
  intros Hp. unfold script. rewrite Hp.
  destruct (decide (missing_vars environ = [])) as [Hv|Hv].
  - destruct (init_valid _ Hv) as (b & Hb & _).
    rewrite (main_phases _ _ b) by done.
    by_phases b args w.
    1-3: destruct R1 as (_ & Hc & _); intros Hlen; apply (f_equal length) in Hlen;
         rewrite ?T3, ?T2, T1, !created_app, Hc, !length_app in Hlen;
         cbn in Hlen; lia.
    intros Hc. rewrite T1 in Hc |- *. rewrite O1.
    destruct R1 as (_ & -> & t0 & ev & -> & Hev & Hf).
    rewrite Hc. split; [done|]. split; [done|].
    by exists e1, t0, ev.
  - rewrite main_invalid by done. cbn. done.
Qed.

(** ** Cleanup after creation *)

(** C9. A run attempts a deletion only if [--cleanup] was given and
    everything before went through: the calls made before the first deletion
    all succeeded, they created exactly the four resources of the chain, and
    when a test query was given its retrieval came back with a first text.
    So whenever the resources created are not the whole chain, no deletion
    is attempted, cleanup requested or not. *)
Theorem cleanup_only_after_success c environ w args :
  parse_args c = Some args →
  let run := script serve c environ (boot w) in
  (attempted_deletions (trace run.2) ≠ [] →
   cleanup args = true
   ∧ ∃ search before after,
       environ !! "AZURE_SEARCH_ENDPOINT" = Some search
       ∧ trace run.2 = before ++ after
       ∧ attempted_deletions before = []
       ∧ failures before = []
       ∧ created before = chain search (agent_name args)
       ∧ created after = []
       ∧ (truthy (test_query args) = true →
          ∃ answer txt, retrieved before = [answer] ∧ first_text answer = Return txt))
  ∧ (∀ search, environ !! "AZURE_SEARCH_ENDPOINT" = Some search →
     created (trace run.2) ≠ chain search (agent_name args) →
     attempted_deletions (trace run.2) = []).
Proof.
  intros Hp. cbn zeta.
  assert (∀ run : Z * state,
    (attempted_deletions (trace run.2) ≠ [] →
     cleanup args = true
     ∧ ∃ search before after,
         environ !! "AZURE_SEARCH_ENDPOINT" = Some search
         ∧ trace run.2 = before ++ after
         ∧ attempted_deletions before = []
         ∧ failures before = []
         ∧ created before = chain search (agent_name args)
         ∧ created after = []
         ∧ (truthy (test_query args) = true →
            ∃ answer txt, retrieved before = [answer] ∧ first_text answer = Return txt)) →
    (attempted_deletions (trace run.2) ≠ [] →
     cleanup args = true
     ∧ ∃ search before after,
         environ !! "AZURE_SEARCH_ENDPOINT" = Some search
         ∧ trace run.2 = before ++ after
         ∧ attempted_deletions before = []
         ∧ failures before = []
         ∧ created before = chain search (agent_name args)
         ∧ created after = []
         ∧ (truthy (test_query args) = true →
            ∃ answer txt, retrieved before = [answer] ∧ first_text answer = Return txt))
    ∧ (∀ search, environ !! "AZURE_SEARCH_ENDPOINT" = Some search →
       created (trace run.2) ≠ chain search (agent_name args) →
       attempted_deletions (trace run.2) = [])) as Hsecond.
  { intros run H. split; [done|]. intros search Hs Hne.
    destruct (attempted_deletions (trace run.2)) as [|d ds] eqn:Hd; [done|].
    destruct H as (_ & search' & before & after & Hs' & Ht & _ & _ & Hc & Ha & _); [done|].
    exfalso. apply Hne. rewrite Ht, created_app, Hc, Ha, app_nil_r. congruence. }
  apply Hsecond. clear Hsecond.
  unfold script. rewrite Hp.
  destruct (decide (missing_vars environ = [])) as [Hv|Hv].
  - destruct (init_valid _ Hv) as (b & Hb & Hse & _).
    rewrite (main_phases _ _ b) by done.
    by_phases b args w.
    1,2: intros Hd;
      assert (cleanup args = true) as Hcl
        by (destruct (cleanup args); [done|]; destruct C3 as [-> _]; [done|];
            exfalso; apply Hd;
            by rewrite T3, T2, T1, app_nil_r, attempted_deletions_app, D1, D2);
      (split; [done|]);
      exists (search_endpoint b), (t1 ++ t2), t3;
      destruct R1 as (_ & Hc & _ & Hf & _);
      (split; [done|]);
      (split; [by rewrite T3, T2, T1|]);
      (split; [by rewrite attempted_deletions_app, D1, D2|]);
      (split; [rewrite failures_app, Hf;
               destruct (test_query args) as [[|a q]|];
               [by destruct R2 as (_ & -> & _)
               |by destruct R2 as (_ & _ & answer & txt & _ & _ & -> & _)
               |by destruct R2 as (_ & -> & _)]|]);
      (split; [by rewrite created_app, Hc, (requested_nil_created _ Q2), app_nil_r|]);
      (split; [by apply requested_nil_created|]);
      intros Htruthy; destruct (test_query args) as [[|a q]|]; try done;
      destruct R2 as (_ & _ & answer & txt & Hr & Hft & _);
      exists answer, txt; by rewrite retrieved_app, V1, Hr.
    + intros Hd. exfalso. apply Hd.
      by rewrite T2, T1, attempted_deletions_app, D1, D2.
    + intros Hd. exfalso. apply Hd. by rewrite T1.
  - rewrite main_invalid by done. cbn. done.
Qed.

(** ** The test query *)


(** ** Reasoning level *)

Lemma reasoning_map_invalid r : r ∉ reasoning_choices → reasoning_map !! r = None.
Proof.
  unfold reasoning_choices, reasoning_map. intros H.
  apply not_elem_of_cons in H as [H1 H].
  apply not_elem_of_cons in H as [H2 H].
  apply not_elem_of_cons in H as [H3 _].
  by rewrite !lookup_insert_ne, lookup_empty.
Qed.

Lemma reasoning_map_minimal :
  reasoning_map !! "minimal" = Some KnowledgeRetrievalMinimalReasoningEffort.
Proof. unfold reasoning_map. by rewrite lookup_insert_eq. Qed.

(** C4, as the code has it.  For a reasoning level outside minimal, low
    and medium, [create_knowledge_base] does exactly what it does for
    minimal, and the knowledge base it requests has the minimal effort; the
    command line does not let such a level through: the parser rejects it,
    and the script exits with status 2 before it does anything. *)
Theorem invalid_reasoning_level r :
  r ∉ reasoning_choices →
  (∀ b name sources model (s : state),
     create_knowledge_base serve b name sources model r s
       = create_knowledge_base serve b name sources model "minimal" s
     ∧ efforts (trace (create_knowledge_base serve b name sources model r s).2)
       = efforts (trace s) ++ [KnowledgeRetrievalMinimalReasoningEffort])
  ∧ (∀ c, opt_reasoning c = Some r → parse_args c = None)
  ∧ (∀ c environ (s : state), opt_reasoning c = Some r →
       script serve c environ s = (2, s)).
Proof.
  intros Hr.
  assert (∀ c, opt_reasoning c = Some r → parse_args c = None) as Hparse.
  { intros c Hc. unfold parse_args. rewrite Hc. cbn [default].
    destruct (opt_index_name c); [|done]. by rewrite bool_decide_eq_false_2. }
  split; [|split; [done|]].
  - intros b name sources model s. split.
    + unfold create_knowledge_base.
      by rewrite (reasoning_map_invalid r), reasoning_map_minimal.
    + destruct s as [w t out]. unfold create_knowledge_base.
      rewrite (reasoning_map_invalid r) by done. expose.
      unfold efforts. crank; cbn [fst snd]; by rewrite omap_app.
  - intros c environ s Hc. unfold script. by rewrite Hparse.
Qed.

(** * Further properties of the script *)

(** ** Pre-flight validation and construction *)




(** ** Teardown for the names given *)

Lemma deletes_ret {A} (a : A) : deletes [] (ret (World := World) a).
Proof. intros s. exists []. cbn. by rewrite app_nil_r. Qed.

Lemma deletes_print line : deletes [] (print (World := World) line).
Proof. intros s. exists []. cbn. by rewrite app_nil_r. Qed.

Lemma deletes_call {R} (r : request R) :
  deletes (option_list (removes r)) (call serve r).
Proof.
  intros s. unfold call. destruct (serve R (world s) r) as [o w'].
  exists [Event r o]. cbn [fst snd trace]. split; [done|].
  unfold attempted_deletions. cbn. destruct (removes r); cbn; (split; [done|]).
  all: destruct o; [done | by exists [], (Event r (Raise e))].
Qed.

Lemma deletes_bind {A B} d1 d2 (c : M A) (k : A → M B) :
  deletes d1 c → (∀ a, deletes d2 (k a)) → deletes (d1 ++ d2) (bind c k).
Proof.
  intros Hc Hk s. unfold bind.
  destruct (Hc s) as (t1 & T1 & P1 & R1).
  destruct (c s) as [[a|e] s1]; cbn [fst snd] in *.
  - destruct R1 as [D1 N1].
    destruct (Hk a s1) as (t2 & T2 & P2 & R2).
    exists (t1 ++ t2). split; [by rewrite T2, T1, app_assoc|].
    rewrite attempted_deletions_app, D1. split; [by apply prefix_app|].
    destruct (k a s1) as [[b|e] s2]; cbn [fst snd] in *.
    + destruct R2 as [-> N2]. by rewrite raises_app, N1, N2.
    + destruct R2 as (t0 & ev & -> & Hev & N0).
      exists (t1 ++ t0), ev. split; [by rewrite app_assoc|].
      split; [done|]. by rewrite raises_app, N1, N0.
  - exists t1. split; [done|]. split; [by apply prefix_app_r | done].
Qed.

Lemma delete_resources_deletes b an av cn kn sn :
  deletes (teardown_plan_given b an av cn kn sn)
    (delete_resources serve b an av cn kn sn).
Proof.
  unfold delete_resources, teardown_plan_given, _get_management_token.
  apply deletes_bind;
    [|intros _; apply deletes_bind; [|intros _; apply deletes_bind; [|intros _]]].
  - destruct an as [[|a an]|], av as [[|a' av]|]; cbn [when_truthy given];
      try apply deletes_ret.
    apply (deletes_bind [_] []); [apply (deletes_call (agents_delete_version _ _ _))|].
    intros _. apply deletes_print.
  - destruct cn as [[|a cn]|]; cbn [when_truthy given]; try apply deletes_ret.
    apply (deletes_bind [] [_]); [apply (deletes_call (get_bearer_token _))|].
    intros token.
    apply (deletes_bind [_] []); [apply (deletes_call (requests_delete _ _))|].
    intros _. apply deletes_print.
  - destruct kn as [[|a kn]|]; cbn [when_truthy given]; try apply deletes_ret.
    apply (deletes_bind [_] []); [apply (deletes_call (delete_knowledge_base _ _))|].
    intros _. apply deletes_print.
  - destruct sn as [[|a sn]|]; cbn [when_truthy given]; try apply deletes_ret.
    apply (deletes_bind [_] []); [apply (deletes_call (delete_knowledge_source _ _))|].
    intros _. apply deletes_print.
Qed.

(** X3. The deletions [delete_resources] attempts are decided by the names it
    is given: the agent version only when both the agent name and the
    version are given and not empty, each of the connection, the knowledge
    base and the knowledge source only when its name is given and not empty,
    always in this order.  It attempts a prefix of this plan, all of it
    exactly when it returns, and stops at the first call that raises. *)
Theorem delete_resources_for_names_given b an av cn kn sn (s : state) :
  let run := delete_resources serve b an av cn kn sn s in
  let plan :=
    match given an, given av with
    | Some a, Some v => [AgentVersionOf a v]
    | _, _ => []
    end
    ++ match given cn with
       | Some c => [ConnectionAt (connection_url b c)]
       | None => []
       end
    ++ match given kn with Some k => [KnowledgeBaseOf k] | None => [] end
    ++ match given sn with Some k => [KnowledgeSourceOf k] | None => [] end in
  ∃ t, trace run.2 = trace s ++ t
    ∧ attempted_deletions t `prefix_of` plan
    ∧ (attempted_deletions t = plan ∧ raises t = [] ↔ run.1 = Return tt)
    ∧ (∀ e, run.1 = Raise e →
       ∃ t0 ev, t = t0 ++ [ev] ∧ event_raised ev = Some e ∧ raises t0 = []).
Proof.
  cbn zeta. destruct (delete_resources_deletes b an av cn kn sn s) as (t & Ht & Hp & Hr).
  fold (teardown_plan_given b an av cn kn sn).
  exists t. split; [done|]. split; [done|].
  destruct (delete_resources serve b an av cn kn sn s) as [[[]|e] s']; cbn [fst snd] in *.
  - split; [done|]. by intros e [=].
  - split; [|by intros e' [= <-]]. split; [|done].
    intros [_ Hn]. destruct Hr as (t0 & ev & -> & Hev & _).
    rewrite raises_app in Hn. unfold raises at 2 in Hn. cbn in Hn. rewrite Hev in Hn.
    by destruct (raises t0).
Qed.

(** ** Failures end the run *)

Lemma halts_ret {A} (a : A) : halts_on_failure (ret (World := World) a).
Proof. intros s. exists []. cbn. by rewrite app_nil_r. Qed.

Lemma halts_print line : halts_on_failure (print (World := World) line).
Proof. intros s. exists []. cbn. by rewrite app_nil_r. Qed.

Lemma halts_call {R} (r : request R) :
  (∀ v, error_of r (Return v) = None) → halts_on_failure (call serve r).
Proof.
  intros Hr s. unfold call. destruct (serve R (world s) r) as [o w'].
  exists [Event r o]. cbn [fst snd trace]. split; [done|].
  destruct o as [v|e].
  - unfold failures. cbn. unfold went_through. by rewrite Hr.
  - exists [], (Event r (Raise e)). split; [done|]. split; [|done].
    cbn. by destruct r.
Qed.

Lemma halts_bind {A B} (c : M A) (k : A → M B) :
  halts_on_failure c → (∀ a, halts_on_failure (k a)) → halts_on_failure (bind c k).
Proof.
  intros Hc Hk s. unfold bind.
  destruct (Hc s) as (t1 & T1 & R1).
  destruct (c s) as [[a|e] s1]; cbn [fst snd] in *.
  - destruct (Hk a s1) as (t2 & T2 & R2).
    exists (t1 ++ t2). split; [by rewrite T2, T1, app_assoc|].
    destruct (k a s1) as [[b|e] s2]; cbn [fst snd] in *.
    + by rewrite failures_app, R1, R2.
    + destruct R2 as (t0 & ev & -> & Hev & N0).
      exists (t1 ++ t0), ev. split; [by rewrite app_assoc|].
      split; [done|]. by rewrite failures_app, R1, N0.
  - by exists t1.
Qed.

Lemma halts_when_truthy (o : option string) (body : string → M unit) :
  (∀ x, halts_on_failure (body x)) → halts_on_failure (when_truthy o body).
Proof.
  intros H. destruct o as [[|a x]|]; cbn; [apply halts_ret | apply H | apply halts_ret].
Qed.

Ltac halts_steps :=
  repeat first
    [ apply halts_bind; [|intros ?]
    | apply halts_when_truthy; intros ?
    | apply halts_print
    | apply halts_ret
    | apply halts_call; intros ?; reflexivity ].

Lemma delete_resources_halts b an av cn kn sn :
  halts_on_failure (delete_resources serve b an av cn kn sn).
Proof. unfold delete_resources, _get_management_token. halts_steps. Qed.

Lemma finish_halts b args mcp_endpoint agent :
  halts_on_failure (finish serve b args mcp_endpoint agent).
Proof.
  unfold finish. destruct (cleanup args); halts_steps.
Qed.

Lemma event_raised_error ev e : event_raised ev = Some e → event_error ev = Some e.
Proof. destruct ev as [R r [v|x]]; cbn; [done|]. intros [= ->]. by destruct r. Qed.

Lemma smoke_test_failures b args (s : state) :
  ∃ t, trace (smoke_test serve b args s).2 = trace s ++ t ∧
    match (smoke_test serve b args s).1 with
    | Return _ => failures t = []
    | Raise e =>
        (∃ ev, t = [ev] ∧ event_error ev = Some e)
        ∨ (failures t = [] ∧ ∃ answer, retrieved t = [answer] ∧ first_text answer = Raise e)
    end.
Proof.
  unfold smoke_test. destruct s as [w t0 out0].
  destruct (test_query args) as [[|a q]|]; cbn [when_truthy].
  1,3: exists []; cbn; by rewrite app_nil_r.
  expose. crank.
  - destruct a0 as [[|[role0 [|item items]] messages0]]; cbn [fst snd].
    all: eexists; (split; [reflexivity|]).
    1,2: right; split; [done|]; by eexists.
    done.
  - cbn [fst snd]. eexists; (split; [reflexivity|]). left. by eexists.
Qed.

(** X4. In every run at most one call fails (raises, or for the connection
    PUT is answered with an error status), and it is the last call made:
    nothing is retried and no service is called after a failure.  The run
    then exits with status 1 and its output ends with the report of that
    call's exception. *)
Theorem run_stops_at_first_failure c environ w :
  let run := script serve c environ (boot w) in
  failures (trace run.2) = []
  ∨ ∃ t0 ev e out,
      trace run.2 = t0 ++ [ev] ∧ failures t0 = [] ∧ event_error ev = Some e
      ∧ run.1 = 1 ∧ stdout run.2 = out ++ report e.
Proof.
  unfold script. destruct (parse_args c) as [args|]; [|by left].
  destruct (decide (missing_vars environ = [])) as [Hv|Hv];
    [|rewrite main_invalid by done; by left].
  destruct (init_valid _ Hv) as (b & Hb & _).
  rewrite (main_phases _ _ b) by done.
  pose proof (smoke_test_failures b args) as Hsmoke.
  pose proof (finish_halts b args) as Hfinish.
  by_phases b args w.
  - destruct R1 as (_ & _ & _ & Hf1 & _).
    destruct (Hsmoke s1) as (t2' & T2' & H2). rewrite E2 in T2', H2. cbn in T2', H2.
    destruct (Hfinish ep agent s2) as (t3' & T3' & H3). rewrite E3 in T3', H3.
    cbn in T3', H3. left. rewrite T3', T2', T1, !failures_app, Hf1, H2, H3. done.
  - destruct R1 as (_ & _ & _ & Hf1 & _).
    destruct (Hsmoke s1) as (t2' & T2' & H2). rewrite E2 in T2', H2. cbn in T2', H2.
    destruct (Hfinish ep agent s2) as (t3' & T3' & H3). rewrite E3 in T3', H3.
    cbn in T3', H3. destruct H3 as (t0 & ev & -> & Hev & H0).
    right. exists (t1 ++ t2' ++ t0), ev, e3, (stdout s3).
    split; [by rewrite T3', T2', T1, <- !app_assoc|].
    split; [by rewrite !failures_app, Hf1, H2, H0|]. done.
  - destruct R1 as (_ & _ & _ & Hf1 & _).
    destruct (Hsmoke s1) as (t2' & T2' & H2). rewrite E2 in T2', H2. cbn in T2', H2.
    destruct H2 as [(ev & -> & Hev)|[H2 _]].
    + right. exists t1, ev, e2, (stdout s2). by rewrite T2', T1.
    + left. by rewrite T2', T1, failures_app, Hf1, H2.
  - destruct R1 as (_ & _ & t0 & ev & -> & Hev & H0).
    right. exists t0, ev, e1, (stdout s1). by rewrite T1.
Qed.


(** ** What the creation steps send *)

Lemma omap_quiet {B} (f : event → option B) t :
  (∀ e, event_creates e = None → f e = None) → requested t = [] → omap f t = [].
Proof.
  intros Hf. unfold requested. induction t as [|e t IH]; [done|]. cbn.
  destruct (event_creates e) eqn:E; [done|]. rewrite (Hf e E). apply IH.
Qed.

Lemma quiet_agents_requested t : requested t = [] → agents_requested t = [].
Proof. apply omap_quiet. by intros [R [] o]. Qed.

Lemma quiet_versions_issued t : requested t = [] → versions_issued t = [].
Proof. apply omap_quiet. by intros [R [] o]. Qed.

Lemma quiet_put_urls t : requested t = [] → put_urls t = [].
Proof. apply omap_quiet. by intros [R [] o]. Qed.

Lemma quiet_kb_sources t : requested t = [] → kb_sources t = [].
Proof. apply omap_quiet. by intros [R [] o]. Qed.

Lemma quiet_efforts t : requested t = [] → efforts t = [].
Proof. apply omap_quiet. by intros [R [] o]. Qed.

Lemma provisioning_requests b args (s : state) :
  ∃ t,
    trace (provisioning serve b args s).2 = trace s ++ t ∧
    authorized None t = true ∧
    Forall (λ p, p = (agent_name args,
                      {| agent_model := model args;
                         instructions := AGENT_INSTRUCTIONS;
                         tools :=
                           [ {| server_label := "knowledge-base";
                                server_url :=
                                  retrieval_endpoint (search_endpoint b)
                                    ("kb-" +:+ agent_name args);
                                require_approval := "never";
                                allowed_tools := ["knowledge_base_retrieve"];
                                project_connection_id := "conn-" +:+ agent_name args |} ]
                      |})) (agents_requested t) ∧
    (agents_requested t = []
     ∨ created t !! 2%nat
       = Some (ConnectionNamed ("conn-" +:+ agent_name args)
                 (retrieval_endpoint (search_endpoint b) ("kb-" +:+ agent_name args)))) ∧
    (kb_sources t = []
     ∨ kb_sources t = [["ks-" +:+ agent_name args]]
       ∧ head (created t) = Some (KnowledgeSourceNamed ("ks-" +:+ agent_name args))) ∧
    (efforts t = []
     ∨ efforts t
       = [default KnowledgeRetrievalMinimalReasoningEffort
            (reasoning_map !! reasoning args)]) ∧
    match (provisioning serve b args s).1 with
    | Return (mcp_endpoint, agent) =>
        versions_issued t = [version agent] ∧
        put_urls t = [connection_url b ("conn-" +:+ agent_name args)]
    | Raise _ => versions_issued t = []
    end.
Proof.
  unfold provisioning. destruct s as [w t0 out0]. expose. repeat crank.
  all: cbn [fst snd].
  all: eexists; (split; [rewrite <- ?app_assoc; reflexivity|]).
  all: (split; [cbn; by rewrite ?bool_decide_eq_true_2|]).
  all: (split; [unfold agents_requested; cbn; repeat constructor|]).
  all: (split; [unfold agents_requested, created; observe; first [by left | by right]|]).
  all: (split; [unfold kb_sources, created; cbn; first [by left | by right]|]).
  all: (split; [unfold efforts; cbn; first [by left | by right]|]).
  all: done.
Qed.

Lemma authorized_mono token t : authorized None t = true → authorized token t = true.
Proof.
  destruct t as [|[R r o] t]; [done|]. by destruct r.
Qed.

Lemma authorized_app token t1 t2 :
  authorized token t1 = true → authorized None t2 = true →
  authorized token (t1 ++ t2) = true.
Proof.
  revert token. induction t1 as [|[R r o] t1 IH]; intros token H1 H2.
  - by apply authorized_mono.
  - destruct r; cbn in *; try by apply IH.
    + destruct o; [case_bool_decide|]; by apply IH.
    + destruct token; [|done]. apply andb_true_iff in H1 as [-> H1]. by apply IH.
    + destruct token; [|done]. apply andb_true_iff in H1 as [-> H1]. by apply IH.
Qed.

Lemma smoke_test_authorized b args :
  emits (λ t, authorized None t = true) (smoke_test serve b args).
Proof.
  unfold smoke_test, query_knowledge_base.
  pose proof (authorized_app None) as Happ.
  assert (authorized None [] = true) as Hnil by done.
  emits_steps.
Qed.

Lemma delete_resources_authorized b an av cn kn sn :
  emits (λ t, authorized None t = true) (delete_resources serve b an av cn kn sn).
Proof.
  unfold delete_resources.
  pose proof (authorized_app None) as Happ.
  assert (authorized None [] = true) as Hnil by done.
  apply emits_bind; [done| |intros _; apply emits_bind; [done| |intros _]].
  - emits_steps.
  - apply emits_when_truthy; [done|]. intros name [w t0 out0].
    unfold _get_management_token. expose. repeat crank.
    all: cbn [fst snd]; eexists _, _.
    all: (split; [split; cbn [trace stdout]; rewrite <- ?app_assoc;
                    first [reflexivity | symmetry; apply app_nil_r]|]).
    all: cbn; by rewrite ?bool_decide_eq_true_2.
  - emits_steps.
Qed.

Lemma finish_authorized b args mcp_endpoint agent :
  emits (λ t, authorized None t = true) (finish serve b args mcp_endpoint agent).
Proof.
  unfold finish.
  pose proof (authorized_app None) as Happ.
  assert (authorized None [] = true) as Hnil by done.
  destruct (cleanup args).
  - do 2 (apply emits_bind; [done|by apply emits_print|intros _]).
    apply emits_bind; [done| |intros _; by apply emits_ret].
    apply emits_bind; [done|by apply emits_print|intros _].
    apply delete_resources_authorized.
  - emits_steps.
Qed.

(** ** The whole script, continued *)

(** X6. Every HTTP request a run sends to the management API, the connection
    PUT and the connection DELETE, carries as bearer the token that the call
    just before it obtained for the management scope: a token is never
    reused from one request to the next, and none is sent without one. *)
Theorem http_requests_carry_fresh_token c environ w :
  authorized None (trace (script serve c environ (boot w)).2) = true.
Proof.
  unfold script. destruct (parse_args c) as [args|]; [|done].
  destruct (decide (missing_vars environ = [])) as [Hv|Hv];
    [|by rewrite main_invalid].
  destruct (init_valid _ Hv) as (b & Hb & _).
  rewrite (main_phases _ _ b) by done.
  destruct (provisioning_requests b args (boot w)) as (t1' & T1' & A1 & _).
  pose proof (smoke_test_authorized b args) as Hsmoke.
  pose proof (finish_authorized b args) as Hfinish.
  by_phases b args w.
  all: rewrite E1 in T1'; cbn in T1'.
  1,2: destruct (Hsmoke s1) as (t2' & o2' & [T2' _] & A2); rewrite E2 in T2';
       cbn in T2';
       destruct (Hfinish ep agent s2) as (t3' & o3' & [T3' _] & A3); rewrite E3 in T3';
       cbn in T3'; rewrite T3', T2', T1'; by repeat apply authorized_app.
  - destruct (Hsmoke s1) as (t2' & o2' & [T2' _] & A2). rewrite E2 in T2'.
    cbn in T2'. rewrite T2', T1'. by apply authorized_app.
  - by rewrite T1'.
Qed.

(** X7. Every agent version a run requests is named by [--agent-name], uses the
    model of [--model] and the built-in instructions, and has exactly one
    tool: its URL is the retrieval endpoint of [kb-<agent>], the same URL the
    connection targets; it refers to the connection [conn-<agent>], asks for
    no approval, and allows the single operation [knowledge_base_retrieve]. *)
Theorem agent_wired_to_connection c environ w args search :
  parse_args c = Some args →
  environ !! "AZURE_SEARCH_ENDPOINT" = Some search →
  let run := script serve c environ (boot w) in
  Forall (λ p, p = (agent_name args,
                    {| agent_model := model args;
                       instructions := AGENT_INSTRUCTIONS;
                       tools :=
                         [ {| server_label := "knowledge-base";
                              server_url :=
                                retrieval_endpoint search ("kb-" +:+ agent_name args);
                              require_approval := "never";
                              allowed_tools := ["knowledge_base_retrieve"];
                              project_connection_id := "conn-" +:+ agent_name args |} ]
                    |})) (agents_requested (trace run.2))
  ∧ (agents_requested (trace run.2) ≠ [] →
     created (trace run.2) !! 2%nat
     = Some (ConnectionNamed ("conn-" +:+ agent_name args)
               (retrieval_endpoint search ("kb-" +:+ agent_name args)))).
Proof.
  intros Hp Hs. unfold script. rewrite Hp.
  destruct (decide (missing_vars environ = [])) as [Hv|Hv];
    [|rewrite main_invalid by done; cbn; by split; [constructor|]].
  destruct (init_valid _ Hv) as (b & Hb & Hse & _).
  assert (search_endpoint b = search) as <- by congruence.
  rewrite (main_phases _ _ b) by done.
  destruct (provisioning_requests b args (boot w)) as (t1' & T1' & _ & G1 & N1 & _).
  by_phases b args w.
  all: rewrite E1 in T1'; cbn in T1'; rewrite <- T1', T1 in G1, N1.
  1,2: rewrite T3, T2, T1; unfold agents_requested in *; rewrite !omap_app;
       fold (agents_requested t2); fold (agents_requested t3);
       rewrite (quiet_agents_requested t2), (quiet_agents_requested t3), !app_nil_r by done;
       (split; [done|]); intros _; rewrite !created_app;
       by destruct R1 as (_ & -> & _).
  - rewrite T2, T1. unfold agents_requested in *. rewrite !omap_app.
    fold (agents_requested t2).
    rewrite (quiet_agents_requested t2), !app_nil_r by done.
    split; [done|]. intros _. rewrite !created_app.
    by destruct R1 as (_ & -> & _).
  - rewrite T1. split; [done|]. intros Hne. by destruct N1.
Qed.

Lemma head_app_Some {A} (l k : list A) x : head l = Some x → head (l ++ k) = Some x.
Proof. by destruct l. Qed.

(** X8. Through the command line the knowledge base always gets the effort that
    [--reasoning] names, minimal when the option is absent: the level of an
    accepted command line is one of the three keys of [reasoning_map], so the
    fallback of the lookup is never taken. *)
Theorem effort_follows_option c environ w args :
  parse_args c = Some args →
  let run := script serve c environ (boot w) in
  reasoning args = default "minimal" (opt_reasoning c)
  ∧ reasoning args ∈ reasoning_choices
  ∧ ∃ effort,
      reasoning_map !! reasoning args = Some effort
      ∧ (reasoning args = "minimal" → effort = KnowledgeRetrievalMinimalReasoningEffort)
      ∧ (reasoning args = "low" → effort = KnowledgeRetrievalLowReasoningEffort)
      ∧ (reasoning args = "medium" → effort = KnowledgeRetrievalMediumReasoningEffort)
      ∧ (efforts (trace run.2) = [] ∨ efforts (trace run.2) = [effort]).
Proof.
  intros Hp.
  assert (reasoning args = default "minimal" (opt_reasoning c)
          ∧ reasoning args ∈ reasoning_choices) as [Hr Hin].
  { unfold parse_args in Hp. destruct (opt_index_name c); [|done].
    case_bool_decide as Hc; [|done]. cbn in Hp.
    destruct (opt_source_fields c) as [[|f fs]|]; [done| |]; by injection Hp as <-. }
  cbn zeta. do 2 (split; [done|]).
  assert (∃ effort, reasoning_map !! reasoning args = Some effort
      ∧ (reasoning args = "minimal" → effort = KnowledgeRetrievalMinimalReasoningEffort)
      ∧ (reasoning args = "low" → effort = KnowledgeRetrievalLowReasoningEffort)
      ∧ (reasoning args = "medium" → effort = KnowledgeRetrievalMediumReasoningEffort))
    as (effort & Hm & H1 & H2 & H3).
  { unfold reasoning_choices in Hin.
    apply elem_of_cons in Hin as [->|Hin]; [by eexists|].
    apply elem_of_cons in Hin as [->|Hin]; [by eexists|].
    apply elem_of_cons in Hin as [->|Hin]; [by eexists|].
    by apply elem_of_nil in Hin. }
  exists effort. do 4 (split; [done|]).
  unfold script. rewrite Hp.
  destruct (decide (missing_vars environ = [])) as [Hv|Hv];
    [|rewrite main_invalid by done; by left].
  destruct (init_valid _ Hv) as (b & Hb & _).
  rewrite (main_phases _ _ b) by done.
  destruct (provisioning_requests b args (boot w)) as (t1' & T1' & _ & _ & _ & _ & F1' & _).
  rewrite Hm in F1'. cbn [default] in F1'.
  by_phases b args w.
  all: rewrite E1 in T1'; cbn in T1'; rewrite <- T1', T1 in F1'.
  1,2: rewrite T3, T2, T1; unfold efforts in *; rewrite !omap_app;
       fold (efforts t2); fold (efforts t3);
       by rewrite (quiet_efforts t2), (quiet_efforts t3), !app_nil_r.
  - rewrite T2, T1. unfold efforts in *. rewrite !omap_app. fold (efforts t2).
    by rewrite (quiet_efforts t2), !app_nil_r.
  - by rewrite T1.
Qed.

(** X9. Whenever a run requests a knowledge base, the knowledge base refers to
    exactly one knowledge source, [ks-<agent>], and that source is the first
    resource the run created: a knowledge base is never requested with a
    source the run did not create before. *)
Theorem knowledge_base_refers_to_created_source c environ w args :
  parse_args c = Some args →
  let run := script serve c environ (boot w) in
  kb_sources (trace run.2) = []
  ∨ kb_sources (trace run.2) = [["ks-" +:+ agent_name args]]
    ∧ head (created (trace run.2)) = Some (KnowledgeSourceNamed ("ks-" +:+ agent_name args)).
Proof.
  intros Hp. unfold script. rewrite Hp.
  destruct (decide (missing_vars environ = [])) as [Hv|Hv];
    [|rewrite main_invalid by done; by left].
  destruct (init_valid _ Hv) as (b & Hb & _).
  rewrite (main_phases _ _ b) by done.
  destruct (provisioning_requests b args (boot w)) as (t1' & T1' & _ & _ & _ & K1 & _).
  by_phases b args w.
  all: rewrite E1 in T1'; cbn in T1'; rewrite <- T1', T1 in K1.
  1,2: rewrite T3, T2, T1; unfold kb_sources in *; rewrite !omap_app;
       fold (kb_sources t2); fold (kb_sources t3);
       rewrite (quiet_kb_sources t2), (quiet_kb_sources t3), !app_nil_r by done;
       destruct K1 as [K1|[K1 H1]]; [by left|right]; (split; [done|]);
       rewrite !created_app, <- app_assoc; by apply head_app_Some.
  - rewrite T2, T1. unfold kb_sources in *. rewrite !omap_app. fold (kb_sources t2).
    rewrite (quiet_kb_sources t2), !app_nil_r by done.
    destruct K1 as [K1|[K1 H1]]; [by left|right]. split; [done|].
    rewrite !created_app. by apply head_app_Some.
  - by rewrite T1.
Qed.


(** ** Cleanup mirrors creation *)

Lemma finish_deletes b args mcp_endpoint agent :
  deletes (if cleanup args
           then teardown_plan_given b (Some (agent_name args)) (Some (version agent))
                  (Some ("conn-" +:+ agent_name args)) (Some ("kb-" +:+ agent_name args))
                  (Some ("ks-" +:+ agent_name args))
           else [])
    (finish serve b args mcp_endpoint agent).
Proof.
  unfold finish.
  apply (deletes_bind [] _); [apply deletes_print|intros _].
  apply (deletes_bind [] _); [apply deletes_print|intros _].
  rewrite <- (app_nil_r (if cleanup args then _ else _)).
  apply deletes_bind; [|intros _; apply deletes_ret].
  destruct (cleanup args); [|apply deletes_ret].
  apply (deletes_bind [] _); [apply deletes_print|intros _].
  apply delete_resources_deletes.
Qed.

(** X11. What a run deletes is what it created.  Without [--cleanup] it attempts
    no deletion.  With it, a run that exits with status 0 has attempted, in
    this order, the deletion of the agent version the service issued (left
    out when the agent name or the issued version is empty), of the
    connection at the very URL of its PUT, of [kb-<agent>] and of
    [ks-<agent>], and nothing else. *)
Theorem cleanup_deletes_what_was_created c environ w args :
  parse_args c = Some args →
  let run := script serve c environ (boot w) in
  (cleanup args = false → attempted_deletions (trace run.2) = [])
  ∧ (cleanup args = true → run.1 = 0 →
     ∃ v u,
       versions_issued (trace run.2) = [v]
       ∧ put_urls (trace run.2) = [u]
       ∧ attempted_deletions (trace run.2)
         = match given (Some (agent_name args)), given (Some v) with
           | Some a, Some v => [AgentVersionOf a v]
           | _, _ => []
           end
           ++ [ ConnectionAt u;
                KnowledgeBaseOf ("kb-" +:+ agent_name args);
                KnowledgeSourceOf ("ks-" +:+ agent_name args) ]).
Proof.
  intros Hp. unfold script. rewrite Hp.
  destruct (decide (missing_vars environ = [])) as [Hv|Hv];
    [|rewrite main_invalid by done; by split].
  destruct (init_valid _ Hv) as (b & Hb & _).
  rewrite (main_phases _ _ b) by done.
  destruct (provisioning_requests b args (boot w))
    as (t1' & T1' & _ & _ & _ & _ & _ & W1).
  pose proof (finish_deletes b args) as Hfinish.
  by_phases b args w.
  all: rewrite E1 in T1', W1; cbn in T1', W1; rewrite <- T1', T1 in W1.
  - destruct (Hfinish ep agent s2) as (t3' & T3' & _ & H3). rewrite E3 in T3', H3.
    cbn in T3', H3. destruct H3 as [H3 _].
    assert (t3' = t3) as -> by (rewrite T3 in T3'; by apply app_inv_head in T3').
    rewrite T3, T2, T1, !attempted_deletions_app, D1, D2, H3. cbn [app].
    split; [by intros ->|]. intros -> _. destruct W1 as [V1' U1].
    exists (version agent), (connection_url b ("conn-" +:+ agent_name args)).
    unfold versions_issued, put_urls in *. rewrite !omap_app.
    fold (versions_issued t2). fold (versions_issued t3).
    fold (put_urls t2). fold (put_urls t3).
    rewrite (quiet_versions_issued t2), (quiet_versions_issued t3) by done.
    rewrite (quiet_put_urls t2), (quiet_put_urls t3) by done.
    rewrite !app_nil_r. do 2 (split; [done|]). done.
  - split; [|done]. intros Hc. destruct (C3 Hc) as [-> _].
    by rewrite T3, T2, T1, !attempted_deletions_app, D1, D2.
  - split; [|done]. intros _. by rewrite T2, T1, !attempted_deletions_app, D1, D2.
  - split; [|done]. intros _. by rewrite T1.
Qed.

(** ** Reports *)







(** X13. The citation fields a run sends are the ones on the command line: every
    knowledge source it requests carries exactly the parsed list, which is
    never empty.  The default of [create_knowledge_source] itself, the three
    fields [id], [title], [content] sent when the method is called without
    fields, is not the default of the command line and is never what a run
    sends unless the command line spells it out. *)
Theorem citation_fields_sent_as_parsed c environ w args :
  parse_args c = Some args →
  let run := script serve c environ (boot w) in
  source_fields args ≠ []
  ∧ source_fields args = default ["id"; "title"] (opt_source_fields c)
  ∧ (citation_fields (trace run.2) = []
     ∨ citation_fields (trace run.2) = [source_fields args])
  ∧ (∀ b name index (s : state),
       citation_fields (trace (create_knowledge_source serve b name index None s).2)
       = citation_fields (trace s) ++ [["id"; "title"; "content"]])
  ∧ (∀ b name index fields (s : state),
       citation_fields (trace (create_knowledge_source serve b name index (Some fields) s).2)
       = citation_fields (trace s) ++ [fields]).
Proof.
  intros Hp. cbn zeta.
  assert (source_fields args ≠ []
          ∧ source_fields args = default ["id"; "title"] (opt_source_fields c)) as [Hne Hd].
  { unfold parse_args in Hp. destruct (opt_index_name c); [|done].
    destruct (negb _); [done|].
    destruct (opt_source_fields c) as [[|f fs]|]; [done| |]; by injection Hp as <-. }
  do 2 (split; [done|]). split; [|split].
  - unfold script. rewrite Hp.
    destruct (decide (missing_vars environ = [])) as [Hv|Hv];
      [|rewrite main_invalid by done; by left].
    destruct (init_valid _ Hv) as (b & Hb & _).
    rewrite (main_phases _ _ b) by done.
    by_phases b args w; right.
    1,2: rewrite T3, T2, T1, !citation_fields_app, F1;
         by rewrite (quiet_citation_fields t2), (quiet_citation_fields t3).
    + rewrite T2, T1, !citation_fields_app, F1. by rewrite (quiet_citation_fields t2).
    + by rewrite T1, F1.
  - intros b name index [w0 t out]. expose. crank; cbn [fst snd trace];
      by rewrite citation_fields_app.
  - intros b name index fields [w0 t out]. expose. crank; cbn [fst snd trace];
      rewrite citation_fields_app; unfold citation_fields at 2; cbn;
      by rewrite field_names_sent.
Qed.

(** ** Where the calls go *)

Ltac emits_with tac :=
  repeat first
    [ apply emits_bind;
        [assumption | | match goal with
                        | |- ∀ _ : _ * _, _ => intros [? ?]
                        | |- _ => intros ?
                        end]
    | apply emits_when_truthy; [assumption | intros ?]
    | apply emits_print; assumption
    | apply emits_ret; assumption
    | apply emits_lift; assumption
    | apply emits_call; intros ?; tac ].

Lemma forallb_app_true {A} (f : A → bool) l1 l2 :
  forallb f l1 = true → forallb f l2 = true → forallb f (l1 ++ l2) = true.
Proof. intros H1 H2. by rewrite forallb_app, H1, H2. Qed.

Lemma forallb_same {A} (f g : A → bool) l :
  (∀ x, f x = g x) → forallb f l = forallb g l.
Proof. intros H. induction l as [|x l IH]; cbn; [done | by rewrite H, IH]. Qed.

Lemma connection_url_spelled b agent :
  connection_url b ("conn-" +:+ agent)
  = "https://management.azure.com" +:+ project_resource_id b
      +:+ "/connections/conn-" +:+ agent +:+ "?api-version=2025-10-01-preview".
Proof.
  unfold connection_url, MGMT_API_VERSION.
  induction ("https://management.azure.com" +:+ project_resource_id b) as [|a x IH];
    cbn; [done | by rewrite IH].
Qed.

Ltac addressed_call :=
  cbn; rewrite ?connection_url_spelled; by rewrite ?bool_decide_eq_true_2.

Lemma provisioning_addressed b args :
  emits (λ t, forallb (addressed b (agent_name args)) t = true)
    (provisioning serve b args).
Proof.
  pose proof (forallb_app_true (addressed b (agent_name args))) as Happ.
  assert (forallb (addressed b (agent_name args)) [] = true) as Hnil by done.
  unfold provisioning, create_knowledge_source, create_knowledge_base,
    create_project_connection, create_agent, _get_management_token.
  emits_with addressed_call.
Qed.

Lemma smoke_test_addressed b args :
  emits (λ t, forallb (addressed b (agent_name args)) t = true)
    (smoke_test serve b args).
Proof.
  pose proof (forallb_app_true (addressed b (agent_name args))) as Happ.
  assert (forallb (addressed b (agent_name args)) [] = true) as Hnil by done.
  unfold smoke_test, query_knowledge_base.
  emits_with addressed_call.
Qed.

Lemma finish_addressed b args mcp_endpoint agent :
  emits (λ t, forallb (addressed b (agent_name args)) t = true)
    (finish serve b args mcp_endpoint agent).
Proof.
  pose proof (forallb_app_true (addressed b (agent_name args))) as Happ.
  assert (forallb (addressed b (agent_name args)) [] = true) as Hnil by done.
  unfold finish, delete_resources, _get_management_token.
  destruct (cleanup args); emits_with addressed_call.
Qed.

(** X14. Every call of a run goes where the configuration says: knowledge
    source, knowledge base and retrieval calls to [AZURE_SEARCH_ENDPOINT],
    agent calls to [PROJECT_ENDPOINT], token requests to the management
    scope, and the connection PUT and DELETE to
    [https://management.azure.com<PROJECT_RESOURCE_ID>/connections/conn-<agent>?api-version=2025-10-01-preview]. *)
Theorem calls_go_where_configured c environ w args search project resource :
  parse_args c = Some args →
  environ !! "AZURE_SEARCH_ENDPOINT" = Some search →
  environ !! "PROJECT_ENDPOINT" = Some project →
  environ !! "PROJECT_RESOURCE_ID" = Some resource →
  ∀ aoai,
    forallb
      (addressed {| search_endpoint := search; aoai_endpoint := aoai;
                    project_endpoint := project; project_resource_id := resource |}
         (agent_name args))
      (trace (script serve c environ (boot w)).2) = true.
Proof.
  intros Hp Hs Hj Hr aoai. unfold script. rewrite Hp.
  destruct (decide (missing_vars environ = [])) as [Hv|Hv];
    [|by rewrite main_invalid].
  destruct (init_valid _ Hv) as (b & Hb & Hs' & _ & Hj' & Hr').
  rewrite (main_phases _ _ b) by done.
  assert (∀ e, addressed {| search_endpoint := search; aoai_endpoint := aoai;
                            project_endpoint := project; project_resource_id := resource |}
                 (agent_name args) e = addressed b (agent_name args) e) as Hsame.
  { intros e. unfold addressed. cbn.
    replace (search_endpoint b) with search by congruence.
    replace (project_endpoint b) with project by congruence.
    by replace (project_resource_id b) with resource by congruence. }
  rewrite (forallb_same _ _ _ Hsame).
  pose proof (provisioning_addressed b args (boot w)) as (t1' & o1' & [T1' _] & A1).
  pose proof (smoke_test_addressed b args) as Hsmoke.
  pose proof (finish_addressed b args) as Hfinish.
  by_phases b args w.
  all: rewrite E1 in T1'; cbn in T1'.
  1,2: destruct (Hsmoke s1) as (t2' & o2' & [T2' _] & A2); rewrite E2 in T2';
       cbn in T2';
       destruct (Hfinish ep agent s2) as (t3' & o3' & [T3' _] & A3); rewrite E3 in T3';
       cbn in T3'; rewrite T3', T2', T1'; by repeat apply forallb_app_true.
  - destruct (Hsmoke s1) as (t2' & o2' & [T2' _] & A2). rewrite E2 in T2'.
    cbn in T2'. rewrite T2', T1'. by apply forallb_app_true.
  - by rewrite T1'.
Qed.

(** ** The test query and the output of a successful run *)

Lemma retrievals_app t1 t2 : retrievals (t1 ++ t2) = retrievals t1 ++ retrievals t2.
Proof. apply omap_app. Qed.

Lemma retrievals_nil_app t1 t2 :
  retrievals t1 = [] → retrievals t2 = [] → retrievals (t1 ++ t2) = [].
Proof. rewrite retrievals_app. by intros -> ->. Qed.

Lemma provisioning_no_retrieval b args :
  emits (λ t, retrievals t = []) (provisioning serve b args).
Proof.
  pose proof retrievals_nil_app as Happ. assert (retrievals [] = []) as Hnil by done.
  unfold provisioning, create_knowledge_source, create_knowledge_base,
    create_project_connection, create_agent, _get_management_token.
  emits_with done.
Qed.

Lemma finish_no_retrieval b args mcp_endpoint agent :
  emits (λ t, retrievals t = []) (finish serve b args mcp_endpoint agent).
Proof.
  pose proof retrievals_nil_app as Happ. assert (retrievals [] = []) as Hnil by done.
  unfold finish, delete_resources, _get_management_token.
  destruct (cleanup args); emits_with done.
Qed.

(** X15. A run retrieves only when a test query is given, at most once, and only
    after it created the whole chain; the retrieval then goes to the
    knowledge base [kb-<agent>] it just created, is scoped to the knowledge
    source [ks-<agent>] it just created, and carries the query as its only
    message text. *)
Theorem test_query_targets_created_chain c environ w args search :
  parse_args c = Some args →
  environ !! "AZURE_SEARCH_ENDPOINT" = Some search →
  let run := script serve c environ (boot w) in
  (truthy (test_query args) = false → retrievals (trace run.2) = [])
  ∧ (retrievals (trace run.2) ≠ [] →
     ∃ q, test_query args = Some q
       ∧ retrievals (trace run.2)
         = [("kb-" +:+ agent_name args, ["ks-" +:+ agent_name args], [q])]
       ∧ created (trace run.2) = chain search (agent_name args)).
Proof.
  intros Hp Hs. unfold script. rewrite Hp.
  destruct (decide (missing_vars environ = [])) as [Hv|Hv];
    [|rewrite main_invalid by done; by split].
  destruct (init_valid _ Hv) as (b & Hb & Hse & _).
  assert (search_endpoint b = search) as <- by congruence.
  rewrite (main_phases _ _ b) by done.
  pose proof (provisioning_no_retrieval b args (boot w)) as (t1' & o1' & [T1' _] & N1).
  pose proof (finish_no_retrieval b args) as Hfinish.
  by_phases b args w.
  all: rewrite E1 in T1'; cbn in T1'; rewrite <- T1', T1 in N1.
  1,2: destruct (Hfinish ep agent s2) as (t3' & o3' & [T3' _] & N3); rewrite E3 in T3';
       cbn in T3';
       assert (retrievals (trace s3) = retrievals t2) as Hr
         by (by rewrite T3', T2, T1, !retrievals_app, N1, N3, app_nil_r);
       assert (created (trace s3) = chain (search_endpoint b) (agent_name args)) as Hc
         by (destruct R1 as (_ & Hc & _);
             by rewrite T3, T2, T1, !created_app, Hc, (requested_nil_created _ Q2),
                  (requested_nil_created _ Q3), !app_nil_r);
       rewrite Hr, Hc;
       destruct (test_query args) as [[|a q]|];
       [ by destruct R2 as (_ & -> & _)
       | destruct R2 as (-> & _); split; [done|]; intros _; by eexists
       | by destruct R2 as (_ & -> & _) ].
  - rewrite T2, T1, !retrievals_app, N1. cbn [app].
    destruct (test_query args) as [[|a q]|].
    1,3: by destruct R2 as ([=] & _).
    destruct R2 as (-> & _). split; [done|]. intros _. exists (String a q).
    do 2 (split; [done|]). rewrite created_app.
    destruct R1 as (_ & -> & _). by rewrite (requested_nil_created _ Q2), app_nil_r.
  - rewrite T1, N1. by split.
Qed.

Lemma finish_output b args mcp_endpoint agent (s : state) :
  ∃ rest,
    stdout (finish serve b args mcp_endpoint agent s).2
    = stdout s ++ [ nl +:+ "✓ Agent '" +:+ agent_name args +:+ "' is ready!";
                    "  MCP Endpoint: " +:+ mcp_endpoint ] ++ rest
    ∧ (cleanup args = false → rest = []).
Proof.
  unfold finish. destruct (cleanup args).
  - unfold bind at 1, print at 1. cbv beta iota.
    unfold bind at 1, print at 1. cbv beta iota.
    unfold bind at 1. unfold bind at 1, print at 1. cbv beta iota.
    match goal with |- context [delete_resources serve b ?a1 ?a2 ?a3 ?a4 ?a5 ?s0] =>
      destruct (delete_resources_quiet b a1 a2 a3 a4 a5 s0) as (t & out & [_ Ho] & _);
      destruct (delete_resources serve b a1 a2 a3 a4 a5 s0) as [[[]|e] s1]
    end; cbn in Ho |- *.
    all: exists ((nl +:+ "Cleaning up...") :: out); split; [|done].
    all: rewrite Ho; by rewrite <- !app_assoc.
  - exists []. split; [|done]. cbn. by rewrite <- !app_assoc.
Qed.

(** X16. A run that exits with status 0 has printed, first, the four progress
    lines, the last with the version the service issued; then, if a test
    query was given, its two lines; then the ready line and the line with
    the MCP endpoint, which is the retrieval endpoint of [kb-<agent>]; and
    without [--cleanup] nothing after them. *)
Theorem success_output c environ w args search :
  parse_args c = Some args →
  environ !! "AZURE_SEARCH_ENDPOINT" = Some search →
  let run := script serve c environ (boot w) in
  run.1 = 0 →
  ∃ v mid rest,
    versions_issued (trace run.2) = [v]
    ∧ stdout run.2
      = progress args v ++ mid
        ++ [ nl +:+ "✓ Agent '" +:+ agent_name args +:+ "' is ready!";
             "  MCP Endpoint: " +:+ retrieval_endpoint search ("kb-" +:+ agent_name args) ]
        ++ rest
    ∧ (truthy (test_query args) = false → mid = [])
    ∧ (truthy (test_query args) = true → length mid = 2%nat)
    ∧ (cleanup args = false → rest = []).
Proof.
  intros Hp Hs. unfold script. rewrite Hp.
  destruct (decide (missing_vars environ = [])) as [Hv|Hv];
    [|by rewrite main_invalid].
  destruct (init_valid _ Hv) as (b & Hb & Hse & _).
  assert (search_endpoint b = search) as <- by congruence.
  rewrite (main_phases _ _ b) by done.
  destruct (provisioning_requests b args (boot w))
    as (t1' & T1' & _ & _ & _ & _ & _ & W1).
  pose proof (finish_output b args) as Hout.
  by_phases b args w; try done.
  intros _. rewrite E1 in T1', W1. cbn in T1', W1. rewrite <- T1', T1 in W1.
  destruct W1 as [V1' _]. destruct R1 as (-> & _ & _ & _ & ->).
  destruct (Hout (retrieval_endpoint (search_endpoint b) ("kb-" +:+ agent_name args))
              agent s2) as (rest & Hrest & Hclean).
  rewrite E3 in Hrest. cbn in Hrest.
  exists (version agent), o2, rest.
  split.
  { rewrite T3, T2, T1. unfold versions_issued in *. rewrite !omap_app.
    fold (versions_issued t2). fold (versions_issued t3).
    by rewrite (quiet_versions_issued t2), (quiet_versions_issued t3), !app_nil_r. }
  split; [by rewrite Hrest, O2, O1, <- !app_assoc|].
  split; [|split; [|done]].
  - destruct (test_query args) as [[|a q]|]; [|done|]; intros _; by destruct R2 as (_ & _ & ->).
  - destruct (test_query args) as [[|a q]|]; try done. intros _.
    by destruct R2 as (_ & _ & answer & txt & _ & _ & _ & ->).
Qed.

(** ** The command line *)


End Properties.

(** * The script on the in-memory backend *)

Example demo_run :
  let run := Memory.run Memory.demo Memory.environment Memory.empty in
  run.1 = 0
  ∧ created (trace run.2) = chain "https://search.example" "demo"
  ∧ efforts (trace run.2) = [KnowledgeRetrievalLowReasoningEffort]
  ∧ elements (Memory.sources (world run.2)) = ["ks-demo"]
  ∧ elements (Memory.bases (world run.2)) = ["kb-demo"]
  ∧ Memory.agents (world run.2) = [("demo", "1")].
Proof. vm_compute. done. Qed.

Example demo_cleanup_run :
  let run := Memory.run (Memory.demo_with "low" (Some "what is indexed?") true)
               Memory.environment Memory.empty in
  run.1 = 0
  ∧ created (trace run.2) = chain "https://search.example" "demo"
  ∧ attempted_deletions (trace run.2)
    = teardown_plan Memory.builder "demo" "1" "conn-demo" "kb-demo" "ks-demo"
  ∧ elements (Memory.sources (world run.2)) = []
  ∧ elements (Memory.bases (world run.2)) = []
  ∧ Memory.agents (world run.2) = [].
Proof. vm_compute. done. Qed.

(** ** Instances of the theorems *)


Lemma missing_configuration_fails_first_witness :
  "PROJECT_ENDPOINT" ∈ REQUIRED_ENV_VARS
  ∧ (∅ : gmap string string) !! "PROJECT_ENDPOINT" = None
  ∧ (Memory.run Memory.demo ∅ Memory.empty).1 ≠ 0
  ∧ trace (Memory.run Memory.demo ∅ Memory.empty).2 = [].
Proof.
  assert ("PROJECT_ENDPOINT" ∈ REQUIRED_ENV_VARS) as Hin by compute_done.
  split; [exact Hin|]. split; [apply lookup_empty|].
  destruct (missing_configuration_fails_first Memory.serve Memory.demo ∅ Memory.empty
              "PROJECT_ENDPOINT" Hin (lookup_empty _)) as (H1 & H2 & _).
  split; [exact H1 | exact H2].
Defined.

Lemma empty_variable_is_missing_witness :
  "AZURE_SEARCH_ENDPOINT" ∈ REQUIRED_ENV_VARS
  ∧ Memory.run Memory.demo (<["AZURE_SEARCH_ENDPOINT" := EmptyString]> Memory.environment)
      Memory.empty
    = Memory.run Memory.demo (delete "AZURE_SEARCH_ENDPOINT" Memory.environment)
        Memory.empty.
Proof.
  assert ("AZURE_SEARCH_ENDPOINT" ∈ REQUIRED_ENV_VARS) as Hin by compute_done.
  split; [exact Hin|].
  exact (proj1 (empty_variable_is_missing Memory.serve Memory.demo Memory.environment
                  Memory.empty "AZURE_SEARCH_ENDPOINT" Hin)).
Defined.


Lemma model_binding_from_single_parameter_witness :
  parse_args Memory.demo = Some Memory.demo_args
  ∧ Memory.environment !! "AZURE_OPENAI_ENDPOINT" = Some "https://aoai.example"
  ∧ Forall (λ p, resource_url p = "https://aoai.example"
                 ∧ deployment_name p = "gpt-4.1-mini" ∧ model_name p = "gpt-4.1-mini")
      (model_bindings (trace (Memory.run Memory.demo Memory.environment Memory.empty).2)).
Proof.
  split; [reflexivity|]. split; [reflexivity|].
  exact (proj2 (model_binding_from_single_parameter Memory.serve)
           Memory.demo Memory.environment Memory.empty Memory.demo_args
           "https://aoai.example" eq_refl eq_refl).
Defined.

Lemma cleanup_only_after_success_witness :
  parse_args (Memory.demo_with "low" None true)
    = Some {| index_name := "my-index"; agent_name := "demo"; model := "gpt-4.1-mini";
              reasoning := "low"; source_fields := ["id"; "title"];
              test_query := None; cleanup := true |}
  ∧ attempted_deletions
      (trace (Memory.run (Memory.demo_with "low" None true)
                Memory.environment Memory.empty).2) ≠ []
  ∧ created (trace (Memory.run (Memory.demo_with "low" None true)
                      Memory.environment Memory.empty).2)
    = chain "https://search.example" "demo".
Proof.
  split; [reflexivity|].
  assert (attempted_deletions
            (trace (Memory.run (Memory.demo_with "low" None true)
                      Memory.environment Memory.empty).2) ≠ []) as Hd
    by (vm_compute; discriminate).
  split; [exact Hd|].
  destruct (cleanup_only_after_success Memory.serve (Memory.demo_with "low" None true)
              Memory.environment Memory.empty _ eq_refl) as [H _].
  destruct (H Hd) as (_ & search & before & after & Hs & Ht & _ & _ & Hc & Ha & _).
  unfold Memory.run. rewrite Ht, created_app, Hc, Ha, app_nil_r.
  vm_compute in Hs. by injection Hs as <-.
Defined.

Lemma teardown_stops_at_first_failure_witness :
  "demo" ≠ EmptyString ∧ "1" ≠ EmptyString ∧ "conn-demo" ≠ EmptyString
  ∧ "kb-demo" ≠ EmptyString ∧ "ks-demo" ≠ EmptyString
  ∧ ∃ t,
      trace (delete_resources Memory.serve Memory.builder (Some "demo") (Some "1")
               (Some "conn-demo") (Some "kb-demo") (Some "ks-demo")
               (boot Memory.empty)).2 = t
      ∧ attempted_deletions t
        `prefix_of` teardown_plan Memory.builder "demo" "1" "conn-demo" "kb-demo" "ks-demo".
Proof.
  assert (∀ a s, String a s ≠ EmptyString) as Hne by done.
  do 5 (split; [apply Hne|]).
  destruct (teardown_stops_at_first_failure Memory.serve Memory.builder
              "demo" "1" "conn-demo" "kb-demo" "ks-demo" (boot Memory.empty)
              (Hne _ _) (Hne _ _) (Hne _ _) (Hne _ _) (Hne _ _)) as (t & Ht & Hp & _).
  exists t. split; [exact Ht | exact Hp].
Defined.

Lemma connection_failure_no_rollback_witness :
  let run := Memory.run Memory.demo Memory.environment (Memory.refusing_put 403) in
  parse_args Memory.demo = Some Memory.demo_args
  ∧ created (trace run.2)
    = [KnowledgeSourceNamed "ks-demo"; KnowledgeBaseNamed "kb-demo"]
  ∧ run.1 = 1
  ∧ attempted_deletions (trace run.2) = [].
Proof.
  cbn zeta. split; [reflexivity|].
  assert (created (trace (Memory.run Memory.demo Memory.environment
                            (Memory.refusing_put 403)).2)
          = [KnowledgeSourceNamed "ks-demo"; KnowledgeBaseNamed "kb-demo"]) as Hc
    by (vm_compute; reflexivity).
  split; [exact Hc|].
  destruct (connection_failure_no_rollback Memory.serve Memory.demo Memory.environment
              (Memory.refusing_put 403) Memory.demo_args eq_refl Hc) as (H1 & H2 & _).
  split; [exact H1 | exact H2].
Defined.


Lemma invalid_reasoning_level_witness :
  ("extreme" ∉ reasoning_choices)
  ∧ parse_args (Memory.demo_with "extreme" None false) = None
  ∧ efforts (trace (create_knowledge_base Memory.serve Memory.builder "kb-demo" ["ks-demo"]
                      "gpt-4.1-mini" "extreme" (boot Memory.empty)).2)
    = [KnowledgeRetrievalMinimalReasoningEffort].
Proof.
  assert ("extreme" ∉ reasoning_choices) as Hr by compute_done.
  split; [exact Hr|].
  destruct (invalid_reasoning_level Memory.serve "extreme" Hr) as (H1 & H2 & _).
  split; [by apply H2|].
  exact (proj2 (H1 Memory.builder "kb-demo" ["ks-demo"] "gpt-4.1-mini" (boot Memory.empty))).
Defined.

(** ** Where the code departs from the specification *)

(** The agent service refuses the deletion of the version during cleanup:
    the run ends with status 1 after that single attempt, and the
    connection, the knowledge base and the knowledge source, whose deletion
    was never attempted, are still there. *)
Lemma teardown_abandons_remaining_deletions :
  let run := Memory.run (Memory.demo_with "low" None true) Memory.environment
               (Memory.failing Memory.DeleteVersion
                  (OtherException "HttpResponseError" "agent service unavailable")) in
  run.1 = 1
  ∧ attempted_deletions (trace run.2) = [AgentVersionOf "demo" "1"]
  ∧ attempted_deletions (trace run.2)
    ≠ teardown_plan Memory.builder "demo" "1" "conn-demo" "kb-demo" "ks-demo"
  ∧ raises (trace run.2) = [OtherException "HttpResponseError" "agent service unavailable"]
  ∧ elements (Memory.sources (world run.2)) = ["ks-demo"]
  ∧ elements (Memory.bases (world run.2)) = ["kb-demo"]
  ∧ size (Memory.connections (world run.2)) = 1%nat.
Proof. vm_compute. repeat split; done. Qed.

(** The credential fails while step 3 asks for the management token: the
    knowledge source and the knowledge base stay, and nothing the run prints
    names the connection step. *)
Lemma connection_failure_not_named :
  let run := Memory.run Memory.demo Memory.environment
               (Memory.failing Memory.Token
                  (OtherException "ClientAuthenticationError"
                     "DefaultAzureCredential failed to retrieve a token")) in
  run.1 = 1
  ∧ created (trace run.2) = [KnowledgeSourceNamed "ks-demo"; KnowledgeBaseNamed "kb-demo"]
  ∧ requested (trace run.2) = [KnowledgeSourceNamed "ks-demo"; KnowledgeBaseNamed "kb-demo"]
  ∧ elements (Memory.sources (world run.2)) = ["ks-demo"]
  ∧ elements (Memory.bases (world run.2)) = ["kb-demo"]
  ∧ stdout run.2
    = [ "✓ Knowledge source 'ks-demo' created from index 'my-index'";
        "✓ Knowledge base 'kb-demo' created";
        nl +:+ "✗ Error: DefaultAzureCredential failed to retrieve a token" ]
  ∧ existsb (occurs "onnection") (stdout run.2) = false.
Proof. vm_compute. repeat split; done. Qed.

(** [--reasoning extreme] does not resolve to minimal: the parser rejects
    it, the script exits with status 2, and no knowledge base is requested,
    with minimal effort or any other. *)
Lemma invalid_reasoning_rejected_by_parser :
  let run := Memory.run (Memory.demo_with "extreme" None false)
               Memory.environment Memory.empty in
  ("extreme" ∉ reasoning_choices)
  ∧ run.1 = 2
  ∧ trace run.2 = []
  ∧ efforts (trace run.2) = []
  ∧ (Memory.run (Memory.demo_with "minimal" None false)
       Memory.environment Memory.empty).1 = 0.
Proof. split; [compute_done|]. vm_compute. repeat split; done. Qed.


(** ** Instances of the further properties *)

Lemma agent_wired_to_connection_witness :
  parse_args Memory.demo = Some Memory.demo_args
  ∧ Memory.environment !! "AZURE_SEARCH_ENDPOINT" = Some "https://search.example"
  ∧ created (trace (Memory.run Memory.demo Memory.environment Memory.empty).2) !! 2%nat
    = Some (ConnectionNamed "conn-demo"
              (retrieval_endpoint "https://search.example" "kb-demo")).
Proof.
  split; [reflexivity|]. split; [reflexivity|].
  destruct (agent_wired_to_connection Memory.serve Memory.demo Memory.environment
              Memory.empty Memory.demo_args "https://search.example" eq_refl eq_refl)
    as [_ H].
  apply H. vm_compute. discriminate.
Defined.

Lemma effort_follows_option_witness :
  parse_args Memory.demo = Some Memory.demo_args
  ∧ reasoning Memory.demo_args ∈ reasoning_choices.
Proof.
  split; [reflexivity|].
  exact (proj1 (proj2 (effort_follows_option Memory.serve Memory.demo Memory.environment
                         Memory.empty Memory.demo_args eq_refl))).
Defined.

Lemma knowledge_base_refers_to_created_source_witness :
  parse_args Memory.demo = Some Memory.demo_args
  ∧ (kb_sources (trace (Memory.run Memory.demo Memory.environment Memory.empty).2) = []
     ∨ kb_sources (trace (Memory.run Memory.demo Memory.environment Memory.empty).2)
       = [["ks-demo"]]
       ∧ head (created (trace (Memory.run Memory.demo Memory.environment Memory.empty).2))
         = Some (KnowledgeSourceNamed "ks-demo")).
Proof.
  split; [reflexivity|].
  exact (knowledge_base_refers_to_created_source Memory.serve Memory.demo
           Memory.environment Memory.empty Memory.demo_args eq_refl).
Defined.


Lemma cleanup_deletes_what_was_created_witness :
  parse_args Memory.demo = Some Memory.demo_args
  ∧ cleanup Memory.demo_args = false
  ∧ attempted_deletions (trace (Memory.run Memory.demo Memory.environment Memory.empty).2)
    = [].
Proof.
  split; [reflexivity|]. split; [reflexivity|].
  exact (proj1 (cleanup_deletes_what_was_created Memory.serve Memory.demo
                  Memory.environment Memory.empty Memory.demo_args eq_refl) eq_refl).
Defined.


Lemma citation_fields_sent_as_parsed_witness :
  parse_args Memory.demo = Some Memory.demo_args
  ∧ source_fields Memory.demo_args ≠ [].
Proof.
  split; [reflexivity|].
  exact (proj1 (citation_fields_sent_as_parsed Memory.serve Memory.demo Memory.environment
                  Memory.empty Memory.demo_args eq_refl)).
Defined.

Lemma calls_go_where_configured_witness :
  parse_args (Memory.demo_with "low" (Some "what is indexed?") true)
    = Some {| index_name := "my-index"; agent_name := "demo"; model := "gpt-4.1-mini";
              reasoning := "low"; source_fields := ["id"; "title"];
              test_query := Some "what is indexed?"; cleanup := true |}
  ∧ Memory.environment !! "AZURE_SEARCH_ENDPOINT" = Some "https://search.example"
  ∧ Memory.environment !! "PROJECT_ENDPOINT" = Some "https://project.example"
  ∧ Memory.environment !! "PROJECT_RESOURCE_ID" = Some "/subscriptions/s/projects/p"
  ∧ forallb (addressed Memory.builder "demo")
      (trace (Memory.run (Memory.demo_with "low" (Some "what is indexed?") true)
                Memory.environment Memory.empty).2) = true.
Proof.
  do 4 (split; [reflexivity|]).
  exact (calls_go_where_configured Memory.serve
           (Memory.demo_with "low" (Some "what is indexed?") true)
           Memory.environment Memory.empty _ "https://search.example"
           "https://project.example" "/subscriptions/s/projects/p"
           eq_refl eq_refl eq_refl eq_refl "https://aoai.example").
Defined.

Lemma test_query_targets_created_chain_witness :
  parse_args (Memory.demo_with "low" (Some "what is indexed?") false)
    = Some Memory.demo_query_args
  ∧ Memory.environment !! "AZURE_SEARCH_ENDPOINT" = Some "https://search.example"
  ∧ retrievals (trace (Memory.run (Memory.demo_with "low" (Some "what is indexed?") false)
                         Memory.environment Memory.empty).2) ≠ []
  ∧ created (trace (Memory.run (Memory.demo_with "low" (Some "what is indexed?") false)
                      Memory.environment Memory.empty).2)
    = chain "https://search.example" "demo".
Proof.
  split; [reflexivity|]. split; [reflexivity|].
  assert (retrievals (trace (Memory.run (Memory.demo_with "low" (Some "what is indexed?") false)
                               Memory.environment Memory.empty).2) ≠ []) as Hr
    by (vm_compute; discriminate).
  split; [exact Hr|].
  destruct (test_query_targets_created_chain Memory.serve
              (Memory.demo_with "low" (Some "what is indexed?") false)
              Memory.environment Memory.empty Memory.demo_query_args
              "https://search.example" eq_refl eq_refl) as [_ H].
  destruct (H Hr) as (q & _ & _ & Hc). exact Hc.
Defined.

Lemma success_output_witness :
  parse_args Memory.demo = Some Memory.demo_args
  ∧ Memory.environment !! "AZURE_SEARCH_ENDPOINT" = Some "https://search.example"
  ∧ (Memory.run Memory.demo Memory.environment Memory.empty).1 = 0
  ∧ ∃ v, versions_issued (trace (Memory.run Memory.demo Memory.environment Memory.empty).2)
         = [v].
Proof.
  split; [reflexivity|]. split; [reflexivity|].
  assert ((Memory.run Memory.demo Memory.environment Memory.empty).1 = 0) as H0
    by (vm_compute; reflexivity).
  split; [exact H0|].
  destruct (success_output Memory.serve Memory.demo Memory.environment Memory.empty
              Memory.demo_args "https://search.example" eq_refl eq_refl H0)
    as (v & mid & rest & Hv & _).
  exists v. exact Hv.
Defined.

(** [delete_resources] without a version leaves the agent alone and
    deletes the rest; an HTTP error answer to the connection DELETE does not
    stop it. *)
Example delete_resources_without_version :
  let run := delete_resources Memory.serve Memory.builder (Some "demo") None
               (Some "conn-demo") (Some "kb-demo") (Some "ks-demo") (boot Memory.empty) in
  run.1 = Return tt
  ∧ attempted_deletions (trace run.2)
    = [ ConnectionAt (connection_url Memory.builder "conn-demo");
        KnowledgeBaseOf "kb-demo"; KnowledgeSourceOf "ks-demo" ]
  ∧ failures (trace run.2) = [].
Proof. vm_compute. repeat split; done. Qed.



Lemma delete_resources_for_names_given_witness :
  ∃ t,
    trace (delete_resources Memory.serve Memory.builder (Some "demo") None
             (Some "conn-demo") (Some "kb-demo") None (boot Memory.empty)).2 = t
    ∧ attempted_deletions t
      `prefix_of` [ ConnectionAt (connection_url Memory.builder "conn-demo");
                    KnowledgeBaseOf "kb-demo" ].
Proof.
  destruct (delete_resources_for_names_given Memory.serve Memory.builder (Some "demo") None
              (Some "conn-demo") (Some "kb-demo") None (boot Memory.empty))
    as (t & Ht & Hp & _).
  exists t. split; [exact Ht | exact Hp].
Defined.


